(** * AR-3N20S: the force-sensor acquisition engine and its polling controller

    A shallow embedding of [six_axis_force_sensor.py] (the conversion
    unit, the register reader, the wrench model, the acquisition engine)
    and of the [SensorController] class of [qt_app.py], followed by the
    properties of the system description that they satisfy.

    Conventions of the embedding:
    - a Python [int] is a [Z]; bit operations are [Z.land];
    - a Python [float] is an IEEE-754 binary64 value, taken from the
      Standard Library's specification [spec_float] at precision 53 and
      exponent bound 1024, with its own rounding;
    - a tuple or list of ints is a [list Z], text is a [string];
    - a raised exception is a value of [exn]; a method is a function from
      the object's state to a [result] and the state afterwards;
    - the pymodbus client is an interface ([ModbusTcpClient]) whose
      operations answer, or raise, as a function of the client's state. *)

From Stdlib Require Import ZArith List String Bool Lia.
From Stdlib Require Import Floats.SpecFloat.
From Stdlib Require Import DecimalString.
Import ListNotations.

Open Scope string_scope.
Open Scope Z_scope.

(** ** Python floats *)

Definition float : Type := spec_float.

Module Float.

Definition prec : Z := 53.
Definition emax : Z := 1024.

(** The literal [0.0]. *)
Definition zero : float := S754_zero false.
Definition infinity : float := S754_infinity false.
Definition nan : float := S754_nan.

Definition add : float -> float -> float := SFadd prec emax.
Definition sub : float -> float -> float := SFsub prec emax.
Definition mul : float -> float -> float := SFmul prec emax.
Definition div : float -> float -> float := SFdiv prec emax.
Definition leb : float -> float -> bool := SFleb.
Definition ltb : float -> float -> bool := SFltb.

(** The coercion of an [int] operand in mixed arithmetic: the nearest
    binary64 value, ties to even.  (CPython refuses integers beyond the
    binary64 range, from [2^1024] on; counts are 16-bit and a sample
    count is the length of a loop that has already run, so the coercion
    is taken total here.  The call [float(n)] on a number read from a
    file is [float_of_int] below, with its error.) *)
Definition of_int (z : Z) : float := binary_normalize prec emax z 0 false.

Definition is_zero (x : float) : bool :=
  match x with S754_zero _ => true | _ => false end.

Definition is_finite (x : float) : bool :=
  match x with S754_zero _ | S754_finite _ _ _ => true | _ => false end.

(** Above zero: a positive number or plus infinity. *)
Definition is_positive (x : float) : bool :=
  match x with S754_finite false _ _ | S754_infinity false => true | _ => false end.

End Float.

(** ** Exceptions and results *)

(** The exception classes the code raises or catches by name, and
    [OtherError] for any other subclass of [Exception] a transport may
    raise (connection refused, socket timeout, ...).  [RuntimeError]
    carries the [__cause__] set by [raise ... from]. *)
#[warnings="-register-all"]
Inductive exn : Type :=
  | TypeError (msg : string)
  | ValueError (msg : string)
  | ZeroDivisionError (msg : string)
  | RuntimeError (msg : string) (cause : option exn)
  | OtherError (cls msg : string).

(** [str(e)]. *)
Definition str (e : exn) : string :=
  match e with
  | TypeError m | ValueError m | ZeroDivisionError m
  | RuntimeError m _ | OtherError _ m => m
  end.

Definition is_TypeError (e : exn) : bool :=
  match e with TypeError _ => true | _ => false end.

Inductive result (A : Type) : Type :=
  | Ok (a : A)
  | Raise (e : exn).
Arguments Ok {A} a.
Arguments Raise {A} e.

(** A method of an object with state [St]: the value returned or the
    exception raised, and the state left behind either way. *)
Definition M (St A : Type) : Type := St -> result A * St.

Definition ret {St A} (a : A) : M St A := fun s => (Ok a, s).

Definition raise {St A} (e : exn) : M St A := fun s => (Raise e, s).

Definition bind {St A B} (m : M St A) (k : A -> M St B) : M St B :=
  fun s =>
    match m s with
    | (Ok a, s') => k a s'
    | (Raise e, s') => (Raise e, s')
    end.

Notation "x <- m ;; k" := (bind m (fun x => k))
  (at level 61, m at next level, right associativity).
Notation "m ;;; k" := (bind m (fun _ => k))
  (at level 61, right associativity).

(** A pure computation that may raise, run inside a method. *)
Definition lift {St A} (r : result A) : M St A := fun s => (r, s).

(** [repr] of an int, as an f-string prints it. *)
Definition repr_int (z : Z) : string := NilZero.string_of_int (Z.to_int z).

(** [x / y] on floats: Python raises on a zero divisor where IEEE would
    answer an infinity or a NaN. *)
Definition truediv (x y : float) : result float :=
  if Float.is_zero y then Raise (ZeroDivisionError "float division by zero")
  else Ok (Float.div x y).

(** ** Conversion unit *)

Definition _u16_to_s16 (value : Z) : Z :=
  let value := Z.land value 0xFFFF in
  if Z.land value 0x8000 =? 0 then value else value - 0x10000.

(** ** Wrench model *)

Record Wrench : Type := mkWrench {
  fx : float;
  fy : float;
  fz : float;
  tx : float;
  ty : float;
  tz : float
}.

Definition tuple6 : Type := (float * float * float * float * float * float)%type.

Definition as_tuple (w : Wrench) : tuple6 :=
  (fx w, fy w, fz w, tx w, ty w, tz w).

Definition zero_wrench : Wrench :=
  mkWrench Float.zero Float.zero Float.zero Float.zero Float.zero Float.zero.

Definition zero_tuple : tuple6 :=
  (Float.zero, Float.zero, Float.zero, Float.zero, Float.zero, Float.zero).

(** ** The transport: pymodbus's client as an interface *)

(** One call of [read_holding_registers]: its positional arguments and its
    keyword arguments, in the order written. *)
Record call : Type := mkCall {
  args : list Z;
  kwargs : list (string * Z)
}.

(** What a call hands back: [None], an object without a [registers]
    attribute (an error response), or a response with its registers. *)
Inductive response : Type :=
  | RespNone
  | RespNoAttr
  | RespRegisters (registers : list Z).

Class ModbusTcpClient (C : Type) : Type := {
  (** [ModbusTcpClient(host, port=..., timeout=...)]; [None] stands for a keyword left out. *)
  client_new : string -> option Z -> option float -> result C;
  (** [connect()], its answer read as a truth value. *)
  client_connect : C -> result bool * C;
  client_close : C -> result unit * C;
  read_holding_registers : call -> C -> result response * C
}.

(** ** Sensor acquisition engine *)

Definition DEFAULT_FORCE_RANGE_N : float := Float.of_int 20.
Definition DEFAULT_COUNTS_FULL_SCALE : float := Float.of_int 32768.

(** The [address] argument of the constructor: one int for every axis, or
    one per axis. *)
Inductive address_arg : Type :=
  | AddrInt (a : Z)
  | AddrSeq (l : list Z).

(** Sequencing of pure computations that may raise. *)
Definition rbind {A B} (r : result A) (k : A -> result B) : result B :=
  match r with
  | Ok a => k a
  | Raise e => Raise e
  end.

Notation "x <-? r ;; k" := (rbind r (fun x => k))
  (at level 61, r at next level, right associativity).

(** [time.sleep]: the passing of time is no part of the state, but the
    call can raise.  CPython turns the delay into nanoseconds on a signed
    64-bit clock: NaN is a [ValueError], a delay whose nanoseconds fall
    outside that clock an [OverflowError], a negative delay a
    [ValueError]. *)
Definition sleep_result (seconds : float) : result unit :=
  match seconds with
  | S754_nan => Raise (ValueError "Invalid value NaN (not a number)")
  | _ =>
      let nanoseconds := Float.mul seconds (Float.of_int (10 ^ 9)) in
      if Float.leb (Float.of_int (- 2 ^ 63)) nanoseconds
         && Float.ltb nanoseconds (Float.of_int (2 ^ 63))
      then
        if Float.ltb seconds Float.zero
        then Raise (ValueError "sleep length must be non-negative")
        else Ok tt
      else Raise (OtherError "OverflowError" "timestamp too large to convert to C _PyTime_t")
  end.

Definition sleep {St} (seconds : float) : M St unit := lift (sleep_result seconds).

(** [float(n)] of an int: the nearest binary64 value, and an
    [OverflowError] when that is beyond the largest one. *)
Definition float_of_int (n : Z) : result float :=
  match Float.of_int n with
  | S754_infinity _ => Raise (OtherError "OverflowError" "int too large to convert to float")
  | f => Ok f
  end.

(** The five ways [_read_u16] phrases one read, in the order it tries
    them. *)
Definition call_variants (device_id address : Z) : list call :=
  [ mkCall [address; 1] [("unit", device_id)];
    mkCall [address; 1] [("slave", device_id)];
    mkCall [] [("address", address); ("count", 1); ("unit", device_id)];
    mkCall [] [("address", address); ("count", 1); ("slave", device_id)];
    mkCall [] [("device_id", device_id); ("address", address)] ].

(** [counts[i] if len(counts) > i else 0]. *)
Definition count_or_zero (counts : list Z) (i : nat) : Z :=
  if (i <? List.length counts)%nat then nth i counts 0 else 0.

Section Engine.

Context {C : Type} `{ModbusTcpClient C}.

Record SixAxisForceSensor : Type := mkSensor {
  ip : string;
  port : Z;
  timeout : option float;
  _n_per_count : float;
  axis_device_ids : list Z;
  addresses : list Z;
  _client : C;
  _bias : Wrench
}.

Definition with_n_per_count (s : SixAxisForceSensor) (v : float) : SixAxisForceSensor :=
  mkSensor (ip s) (port s) (timeout s) v (axis_device_ids s) (addresses s) (_client s) (_bias s).

Definition with_client (s : SixAxisForceSensor) (c : C) : SixAxisForceSensor :=
  mkSensor (ip s) (port s) (timeout s) (_n_per_count s) (axis_device_ids s) (addresses s) c (_bias s).

Definition with_bias (s : SixAxisForceSensor) (b : Wrench) : SixAxisForceSensor :=
  mkSensor (ip s) (port s) (timeout s) (_n_per_count s) (axis_device_ids s) (addresses s) (_client s) b.

(** The keyword form first; a client that rejects it with a [TypeError]
    is built from the host alone. *)
Definition _create_client (ip : string) (port : Z) (timeout : option float) : result C :=
  match client_new ip (Some port) timeout with
  | Raise (TypeError _) => client_new ip None None
  | r => r
  end.

Definition __init__ (ip : string) (address : address_arg) (axis_device_ids : list Z)
    (port : Z) (timeout : option float) (n_per_count : option float)
    (force_range_n counts_full_scale : float) : result SixAxisForceSensor :=
  npc <-? match n_per_count with
          | Some v => Ok v
          | None => truediv force_range_n counts_full_scale
          end ;;
  if Float.leb npc Float.zero then Raise (ValueError "n_per_count must be > 0")
  else
    addrs <-? match address with
              | AddrInt a => Ok (map (fun _ => a) axis_device_ids)
              | AddrSeq l =>
                  if (List.length l =? List.length axis_device_ids)%nat then Ok l
                  else Raise (ValueError "address sequence length must match axis_device_ids length")
              end ;;
    client <-? _create_client ip port timeout ;;
    Ok (mkSensor ip port timeout npc axis_device_ids addrs client zero_wrench).

Definition n_per_count : M SixAxisForceSensor float :=
  fun s => (Ok (_n_per_count s), s).

(** The setter of the [n_per_count] property. *)
Definition set_n_per_count (value : float) : M SixAxisForceSensor unit :=
  fun s =>
    if Float.leb value Float.zero then (Raise (ValueError "n_per_count must be > 0"), s)
    else (Ok tt, with_n_per_count s value).

Definition connect : M SixAxisForceSensor bool :=
  fun s => let (r, c) := client_connect (_client s) in (r, with_client s c).

Definition open : M SixAxisForceSensor bool := connect.

(** Whatever the client raises while closing is dropped. *)
Definition close : M SixAxisForceSensor unit :=
  fun s => let (_, c) := client_close (_client s) in (Ok tt, with_client s c).

Definition disconnect : M SixAxisForceSensor unit := close.

Definition bias_vector : M SixAxisForceSensor Wrench :=
  fun s => (Ok (_bias s), s).

(** The loop of [_read_u16] over the remaining conventions, on the client:
    a response with a register returns it, masked; no response, no
    [registers], no register or a [TypeError] moves on; anything else
    raised leaves the loop as it is. *)
Fixpoint try_variants (device_id : Z) (calls : list call) (last_exc : option exn)
    (c : C) : result Z * C :=
  match calls with
  | [] =>
      (Raise (RuntimeError
                ("read_holding_registers failed for device_id=" ++ repr_int device_id)
                last_exc), c)
  | call :: rest =>
      match read_holding_registers call c with
      | (Ok (RespRegisters (r :: _)), c') => (Ok (Z.land r 0xFFFF), c')
      | (Ok _, c') => try_variants device_id rest last_exc c'
      | (Raise (TypeError m), c') => try_variants device_id rest (Some (TypeError m)) c'
      | (Raise e, c') => (Raise e, c')
      end
  end.

Definition _read_u16 (device_id address : Z) : M SixAxisForceSensor Z :=
  fun s =>
    let (r, c) := try_variants device_id (call_variants device_id address) None (_client s) in
    (r, with_client s c).

(** The loop of [read_raw_u16]: [values] grows by one read per axis. *)
Fixpoint read_axes (axes : list (Z * Z)) (values : list Z) : M SixAxisForceSensor (list Z) :=
  match axes with
  | [] => ret values
  | (device_id, address) :: rest =>
      v <- _read_u16 device_id address ;;
      read_axes rest (values ++ [v])%list
  end.

Definition read_raw_u16 : M SixAxisForceSensor (list Z) :=
  fun s => read_axes (combine (axis_device_ids s) (addresses s)) [] s.

Definition read_counts : M SixAxisForceSensor (list Z) :=
  raw <- read_raw_u16 ;;
  ret (map _u16_to_s16 raw).

Definition get_wrench (unbiased : bool) : M SixAxisForceSensor Wrench :=
  counts <- read_counts ;;
  fun s =>
    let fx_ := Float.mul (Float.of_int (count_or_zero counts 0)) (_n_per_count s) in
    let fy_ := Float.mul (Float.of_int (count_or_zero counts 1)) (_n_per_count s) in
    let fz_ := Float.mul (Float.of_int (count_or_zero counts 2)) (_n_per_count s) in
    let wrench := mkWrench fx_ fy_ fz_ Float.zero Float.zero Float.zero in
    if unbiased then (Ok wrench, s)
    else
      (Ok (mkWrench
             (Float.sub (fx wrench) (fx (_bias s)))
             (Float.sub (fy wrench) (fy (_bias s)))
             (Float.sub (fz wrench) (fz (_bias s)))
             (Float.sub (tx wrench) (tx (_bias s)))
             (Float.sub (ty wrench) (ty (_bias s)))
             (Float.sub (tz wrench) (tz (_bias s)))), s).

Definition get_force_torque (unbiased : bool) : M SixAxisForceSensor tuple6 :=
  w <- get_wrench unbiased ;;
  ret (as_tuple w).

Definition get_forces (unbiased : bool) : M SixAxisForceSensor (float * float * float) :=
  w <- get_wrench unbiased ;;
  ret (fx w, fy w, fz w).

(** The sampling loop of [bias]: [n] iterations left, the three running
    sums carried along. *)
Fixpoint bias_loop (n : nat) (delay_s : float) (sum_fx sum_fy sum_fz : float)
    : M SixAxisForceSensor (float * float * float) :=
  match n with
  | O => ret (sum_fx, sum_fy, sum_fz)
  | S n' =>
      w <- get_wrench true ;;
      (if Float.ltb Float.zero delay_s then sleep delay_s else ret tt) ;;;
      bias_loop n' delay_s
        (Float.add sum_fx (fx w)) (Float.add sum_fy (fy w)) (Float.add sum_fz (fz w))
  end.

Definition bias (samples : Z) (delay_s : float) : M SixAxisForceSensor Wrench :=
  if samples <=? 0 then raise (ValueError "samples must be > 0")
  else
    sums <- bias_loop (Z.to_nat samples) delay_s Float.zero Float.zero Float.zero ;;
    let '(sum_fx, sum_fy, sum_fz) := sums in
    bx <- lift (truediv sum_fx (Float.of_int samples)) ;;
    by_ <- lift (truediv sum_fy (Float.of_int samples)) ;;
    bz <- lift (truediv sum_fz (Float.of_int samples)) ;;
    fun s =>
      let s' := with_bias s (mkWrench bx by_ bz Float.zero Float.zero Float.zero) in
      (Ok (_bias s'), s').

Definition unbias : M SixAxisForceSensor unit :=
  fun s => (Ok tt, with_bias s zero_wrench).

Definition tare (samples : Z) (delay_s : float) : M SixAxisForceSensor Wrench :=
  bias samples delay_s.

Definition clear_tare : M SixAxisForceSensor unit := unbias.

End Engine.

Arguments SixAxisForceSensor C : clear implicits.

(** ** Polling / connection controller *)

(** The two Qt signals of [SensorController], as the values they carry. *)
Inductive signal : Type :=
  | updated (ft6 : tuple6) (message : string) (is_connected : bool)
  | bias_updated (bias6 : tuple6).

(** [a or b] on text: the empty string is false. *)
Definition or_str (a b : string) : string :=
  match a with
  | EmptyString => b
  | _ => a
  end.

Module Controller.

Section Controller.

Context {C : Type} `{ModbusTcpClient C}.

Record SensorController : Type := mkController {
  sensor : SixAxisForceSensor C;
  connected : bool;
  last_error : string
}.

Definition _ensure_connected (c : SensorController) : bool * SensorController :=
  if connected c then (true, c)
  else
    match connect (sensor c) with
    | (Ok b, s) =>
        let c1 := mkController s b (last_error c) in
        let c2 := if negb (connected c1)
                  then mkController s b "connect() returned False"
                  else c1 in
        (connected c2, c2)
    | (Raise e, s) => (false, mkController s false (str e))
    end.

(** The [try] block of [poll]; the signals are those emitted on the way. *)
Definition poll_try (c : SensorController) : result (list signal) * SensorController :=
  let (ok, c1) := _ensure_connected c in
  if negb ok then (Raise (RuntimeError (or_str (last_error c1) "not connected") None), c1)
  else
    match get_force_torque false (sensor c1) with
    | (Ok ft, s) =>
        let c2 := mkController s (connected c1) "Modbus OK" in
        (Ok [updated ft (last_error c2) true], c2)
    | (Raise e, s) => (Raise e, mkController s (connected c1) (last_error c1))
    end.

(** [poll]: the [try] block, and the [except Exception] clause behind it. *)
Definition poll (c : SensorController) : list signal * SensorController :=
  match poll_try c with
  | (Ok emitted, c') => (emitted, c')
  | (Raise e, c') =>
      let c2 := mkController (sensor c') false (str e) in
      ([updated zero_tuple (last_error c2) false], c2)
  end.

Definition tare_try (samples : Z) (c : SensorController)
    : result (list signal) * SensorController :=
  let (ok, c1) := _ensure_connected c in
  if negb ok then (Raise (RuntimeError (or_str (last_error c1) "not connected") None), c1)
  else
    match bias samples Float.zero (sensor c1) with
    | (Ok w, s) => (Ok [bias_updated (as_tuple w)], mkController s (connected c1) (last_error c1))
    | (Raise e, s) => (Raise e, mkController s (connected c1) (last_error c1))
    end.

Definition tare (samples : Z) (c : SensorController) : list signal * SensorController :=
  match tare_try samples c with
  | (Ok emitted, c') => (emitted, c')
  | (Raise e, c') => ([], mkController (sensor c') false (str e))
  end.

Definition clear (c : SensorController) : result (list signal) * SensorController :=
  match unbias (sensor c) with
  | (Ok _, s) => (Ok [bias_updated zero_tuple], mkController s (connected c) (last_error c))
  | (Raise e, s) => (Raise e, mkController s (connected c) (last_error c))
  end.

End Controller.

Arguments SensorController C : clear implicits.

End Controller.

(** ** A scripted transport

    A client for running the engine on chosen inputs: it answers
    [connect()] and register reads from two scripts, one entry per call,
    and keeps the calls it saw.  With [only_keyword] set it raises
    [TypeError] on any call that does not pass that keyword, as a pymodbus
    release that knows a single spelling of the device id does, without
    consuming the script. *)

Record ScriptedClient : Type := mkScripted {
  only_keyword : option string;
  connect_script : list (result bool);
  read_script : list (result response);
  calls_seen : list call
}.

Definition has_keyword (k : string) (c : call) : bool :=
  existsb (fun kv => String.eqb (fst kv) k) (kwargs c).

Definition scripted_connect (c : ScriptedClient) : result bool * ScriptedClient :=
  match connect_script c with
  | [] => (Ok false, c)
  | r :: rest => (r, mkScripted (only_keyword c) rest (read_script c) (calls_seen c))
  end.

Definition scripted_read (cl : call) (c : ScriptedClient) : result response * ScriptedClient :=
  let seen := (calls_seen c ++ [cl])%list in
  let refused :=
    match only_keyword c with
    | Some k => negb (has_keyword k cl)
    | None => false
    end in
  if refused then
    (Raise (TypeError "unexpected keyword argument"),
     mkScripted (only_keyword c) (connect_script c) (read_script c) seen)
  else
    match read_script c with
    | [] => (Raise (OtherError "ModbusIOException" "no response"),
             mkScripted (only_keyword c) (connect_script c) [] seen)
    | r :: rest => (r, mkScripted (only_keyword c) (connect_script c) rest seen)
    end.

#[global] Instance ScriptedClient_ModbusTcpClient : ModbusTcpClient ScriptedClient := {
  client_new := fun _ _ _ => Ok (mkScripted None [] [] []);
  client_connect := scripted_connect;
  client_close := fun c => (Ok tt, c);
  read_holding_registers := scripted_read
}.

(** ** A ramp transport

    A device whose register climbs by ten at every read, whatever the
    convention of the call: 10, 20, 30, ...  It always connects. *)

Record RampClient : Type := mkRamp {
  level : Z
}.

#[global] Instance RampClient_ModbusTcpClient : ModbusTcpClient RampClient := {
  client_new := fun _ _ _ => Ok (mkRamp 0);
  client_connect := fun c => (Ok true, c);
  client_close := fun c => (Ok tt, c);
  read_holding_registers := fun _ c =>
    (Ok (RespRegisters [level c + 10]), mkRamp (level c + 10))
}.

(** A response carrying one register. *)
Definition reg (v : Z) : result response := Ok (RespRegisters [v]).

(** A sensor over a scripted client, past its constructor. *)
Definition scripted_sensor (npc : float) (ids : list Z) (c : ScriptedClient)
    : SixAxisForceSensor ScriptedClient :=
  mkSensor "10.10.10.2" 502 None npc ids (map (fun _ => 0) ids) c zero_wrench.

(** ** The words of the system description, as definitions

    What the description says of the conversion, of the bias average and
    of the reader's fallback, written independently of the code above, to
    be compared with it below. *)

(** The raw-to-signed transform: [v] below [0x8000], [v - 0x10000] from
    there on. *)
Definition toSigned (v : Z) : Z :=
  if v <? 32768 then v else v - 65536.

(** The register image of a signed count (two's complement on 16 bits). *)
Definition toUnsigned (s : Z) : Z :=
  if s <? 0 then s + 65536 else s.

(** The arithmetic mean of a list of floats: their sum from [0.0], left to
    right, over their number. *)
Definition fsum (l : list float) : float := fold_left Float.add l Float.zero.

Definition mean (l : list float) : float :=
  Float.div (fsum l) (Float.of_int (Z.of_nat (List.length l))).

(** Counts scaled to forces, torque at [0.0]; a channel without a count
    takes the count 0. *)
Definition scaled (npc : float) (counts : list Z) : Wrench :=
  mkWrench
    (Float.mul (Float.of_int (count_or_zero counts 0)) npc)
    (Float.mul (Float.of_int (count_or_zero counts 1)) npc)
    (Float.mul (Float.of_int (count_or_zero counts 2)) npc)
    Float.zero Float.zero Float.zero.

(** Component-wise subtraction of wrenches. *)
Definition minus (w b : Wrench) : Wrench :=
  mkWrench
    (Float.sub (fx w) (fx b)) (Float.sub (fy w) (fy b)) (Float.sub (fz w) (fz b))
    (Float.sub (tx w) (tx b)) (Float.sub (ty w) (ty b)) (Float.sub (tz w) (tz b)).

(** The wrench whose force components are the means of those of [ws]. *)
Definition mean_wrench (ws : list Wrench) : Wrench :=
  mkWrench (mean (map fx ws)) (mean (map fy ws)) (mean (map fz ws))
    Float.zero Float.zero Float.zero.

(** The pause between two samples of [bias] goes through: there is none
    for a delay that is not above zero, and [time.sleep] returns for the
    others.  The default delay, 0.0, is of the first kind. *)
Definition delay_accepted (delay_s : float) : bool :=
  if Float.ltb Float.zero delay_s
  then match sleep_result delay_s with Ok _ => true | Raise _ => false end
  else true.

(** With [n] axes configured, the force channels beyond the [n]-th are
    missing; here each of them is exactly [0.0] in [w]. *)
Definition missing_channels_zero (n : nat) (w : Wrench) : Prop :=
  ((n <= 0)%nat -> fx w = Float.zero) /\
  ((n <= 1)%nat -> fy w = Float.zero) /\
  ((n <= 2)%nat -> fz w = Float.zero).

(** An attempt that makes the reader go on to the next convention: no
    response, a response without registers, or a [TypeError]. *)
Definition moves_on (r : result response) : bool :=
  match r with
  | Ok (RespRegisters (_ :: _)) => false
  | Ok _ => true
  | Raise (TypeError _) => true
  | Raise _ => false
  end.

(** The last [TypeError] among the outcomes, the [__cause__] of the final
    error. *)
Fixpoint last_TypeError (outcomes : list (result response)) (acc : option exn) : option exn :=
  match outcomes with
  | [] => acc
  | Raise (TypeError m) :: rest => last_TypeError rest (Some (TypeError m))
  | _ :: rest => last_TypeError rest acc
  end.

Section Words.

Context {C : Type} `{ModbusTcpClient C}.

(** The calls made one after the other on the client, all of them: their
    outcomes and the client afterwards. *)
Fixpoint replay (calls : list call) (c : C) : list (result response) * C :=
  match calls with
  | [] => ([], c)
  | cl :: rest =>
      let (r, c1) := read_holding_registers cl c in
      let (rs, c2) := replay rest c1 in
      (r :: rs, c2)
  end.

(** [n] consecutive unbiased reads, stopping at the first that raises. *)
Fixpoint unbiased_reads (n : nat) : M (SixAxisForceSensor C) (list Wrench) :=
  match n with
  | O => ret []
  | S n' =>
      w <- get_wrench true ;;
      ws <- unbiased_reads n' ;;
      ret (w :: ws)
  end.

(** The number of configured axes: one per pair of the address table. *)
Definition n_axes (s : SixAxisForceSensor C) : nat :=
  List.length (combine (axis_device_ids s) (addresses s)).

(** [s'] differs from [s] in the state of the client at most. *)
Definition only_client (s s' : SixAxisForceSensor C) : Prop :=
  s' = with_client s (_client s').

(** What keeps the missing channels at zero: a scale that is a finite
    number above zero, and a bias vector that is zero on them. *)
Definition degraded_invariant (s : SixAxisForceSensor C) : Prop :=
  Float.is_finite (_n_per_count s) = true /\
  Float.leb (_n_per_count s) Float.zero = false /\
  missing_channels_zero (n_axes s) (_bias s).

(** The public methods of the engine, and the state each leaves. *)
Inductive method : Type :=
  | call_set_n_per_count (value : float)
  | call_connect
  | call_close
  | call_read_raw_u16
  | call_read_counts
  | call_get_wrench (unbiased : bool)
  | call_bias (samples : Z) (delay_s : float)
  | call_unbias.

Definition state_after (m : method) (s : SixAxisForceSensor C) : SixAxisForceSensor C :=
  match m with
  | call_set_n_per_count v => snd (set_n_per_count v s)
  | call_connect => snd (connect s)
  | call_close => snd (close s)
  | call_read_raw_u16 => snd (read_raw_u16 s)
  | call_read_counts => snd (read_counts s)
  | call_get_wrench u => snd (get_wrench u s)
  | call_bias n d => snd (bias n d s)
  | call_unbias => snd (unbias s)
  end.

(** The engines a program can hold: built by the constructor, then driven
    through the public methods. *)
Inductive reachable : SixAxisForceSensor C -> Prop :=
  | reachable_init ip address ids port timeout npc range full s :
      __init__ ip address ids port timeout npc range full = Ok s ->
      reachable s
  | reachable_step s m :
      reachable s ->
      reachable (state_after m s).

(** The same, for an engine whose scale factor has been a finite number
    all along. *)
Inductive reachable_finite : SixAxisForceSensor C -> Prop :=
  | reachable_finite_init ip address ids port timeout npc range full s :
      __init__ ip address ids port timeout npc range full = Ok s ->
      Float.is_finite (_n_per_count s) = true ->
      reachable_finite s
  | reachable_finite_step s m :
      reachable_finite s ->
      Float.is_finite (_n_per_count (state_after m s)) = true ->
      reachable_finite (state_after m s).

End Words.

(** ** Worked inputs

    Engines and controllers over the scripted transport, for the
    scenarios of the description. *)

(** The default scale, 20 N over 32768 counts. *)
Definition default_scale : float :=
  Float.div DEFAULT_FORCE_RANGE_N DEFAULT_COUNTS_FULL_SCALE.

(** Registers [0x9C40, 0x2710, 0x0000] on three axes. *)
Definition scenario_sensor : SixAxisForceSensor ScriptedClient :=
  scripted_sensor default_scale [1; 2; 3]
    (mkScripted None [Ok true] [reg 0x9C40; reg 0x2710; reg 0x0000] []).

(** A controller fresh from its constructor. *)
Definition fresh_controller (s : SixAxisForceSensor ScriptedClient)
    : Controller.SensorController ScriptedClient :=
  Controller.mkController s false "".

(** A link that connects, serves one read of three axes, then fails. *)
Definition flaky_controller : Controller.SensorController ScriptedClient :=
  fresh_controller
    (scripted_sensor default_scale [1; 2; 3]
       (mkScripted None [Ok true]
          [reg 100; reg 200; reg 300; Raise (OtherError "ModbusIOException" "link down")] [])).

(** A link refused at the first attempt and granted at the second. *)
Definition retry_controller : Controller.SensorController ScriptedClient :=
  fresh_controller
    (scripted_sensor default_scale [1; 2; 3]
       (mkScripted None [Ok false; Ok true] [reg 100; reg 200; reg 300] [])).

(** One axis on the ramp device at one newton per count, as the
    constructor builds it. *)
Definition ramp_sensor : SixAxisForceSensor RampClient :=
  mkSensor "10.10.10.2" 502 None (Float.of_int 1) [1] [0] (mkRamp 0) zero_wrench.

(** Three axes on a link that serves two full reads, then fails. *)
Definition two_reads_sensor : SixAxisForceSensor ScriptedClient :=
  scripted_sensor default_scale [1; 2; 3]
    (mkScripted None [Ok true]
       [reg 100; reg 200; reg 300; reg 1; reg 2; reg 3;
        Raise (OtherError "ModbusIOException" "link down")] []).

(** One axis, device id 7, on a client that knows the device id as
    [slave=] only and holds the register 0x9C40. *)
Definition slave_only_sensor : SixAxisForceSensor ScriptedClient :=
  scripted_sensor default_scale [7]
    (mkScripted (Some "slave") [Ok true] [reg 0x9C40] []).

(** The same device behind a client that accepts none of the five
    spellings. *)
Definition no_convention_sensor : SixAxisForceSensor ScriptedClient :=
  scripted_sensor default_scale [7]
    (mkScripted (Some "node") [Ok true] [reg 0x9C40] []).

(** The same device, the link failing at the first call it accepts. *)
Definition slave_only_down_sensor : SixAxisForceSensor ScriptedClient :=
  scripted_sensor default_scale [7]
    (mkScripted (Some "slave") [Ok true]
       [Raise (OtherError "ModbusIOException" "link down")] []).

(** The constructor's arguments for one axis on the ramp device, the
    scale factor left to choose. *)
Definition ramp_init (npc : float) : result (SixAxisForceSensor RampClient) :=
  __init__ "10.10.10.2" (AddrInt 0) [1] 502 None (Some npc)
    DEFAULT_FORCE_RANGE_N DEFAULT_COUNTS_FULL_SCALE.

(** ** Application configuration ([arizon_config.py]) *)

(** [round(x)] of a float: the nearest integer, ties to the even one; it
    raises on NaN and on the infinities. *)
Definition py_round (x : float) : result Z :=
  match x with
  | S754_nan => Raise (ValueError "cannot convert float NaN to integer")
  | S754_infinity _ =>
      Raise (OtherError "OverflowError" "cannot convert float infinity to integer")
  | S754_zero _ => Ok 0
  | S754_finite sign m e =>
      let magnitude :=
        if 0 <=? e then Zpos m * 2 ^ e
        else
          let d := 2 ^ (- e) in
          let q := Zpos m / d in
          let r := Zpos m mod d in
          match 2 * r ?= d with
          | Lt => q
          | Gt => q + 1
          | Eq => if Z.even q then q else q + 1
          end in
      Ok (if sign then - magnitude else magnitude)
  end.

Module Config.

(** The values a configuration dictionary holds. *)
Inductive value : Type :=
  | VStr (s : string)
  | VInt (z : Z)
  | VFloat (f : float)
  | VList (l : list Z).

(** The dataclass, its fields at their annotated types;
    [axis_device_ids] past [__post_init__], which puts [1, 2, 3] for
    [None]. *)
Record AppConfig : Type := mkConfig {
  sensor_ip : string;
  sensor_port : Z;
  address : Z;
  axis_device_ids : list Z;
  timeout_s : float;
  force_range_n : float;
  counts_full_scale : float;
  poll_interval_ms : Z;
  language : string
}.

(** [AppConfig()]. *)
Definition defaults : AppConfig :=
  mkConfig "10.10.10.2" 502 0 [1; 2; 3] (Float.of_int 1)
    (Float.of_int 20) (Float.of_int 32768) 50 "zh".

Definition field_names : list string :=
  [ "sensor_ip"; "sensor_port"; "address"; "axis_device_ids"; "timeout_s";
    "force_range_n"; "counts_full_scale"; "poll_interval_ms"; "language" ].

Definition n_per_count (cfg : AppConfig) : result float :=
  truediv (force_range_n cfg) (counts_full_scale cfg).

(** [1000.0 / float(poll_interval_ms) if poll_interval_ms > 0 else 0.0]. *)
Definition poll_hz (cfg : AppConfig) : result float :=
  if 0 <? poll_interval_ms cfg
  then interval <-? float_of_int (poll_interval_ms cfg) ;;
       truediv (Float.of_int 1000) interval
  else Ok Float.zero.

(** [float(poll_interval_ms)] is asked for and the interval is beyond the
    binary64 range. *)
Definition interval_overflows (cfg : AppConfig) : bool :=
  (0 <? poll_interval_ms cfg)
  && match Float.of_int (poll_interval_ms cfg) with
     | S754_infinity _ => true
     | _ => false
     end.

Definition to_public_dict (cfg : AppConfig) : result (list (string * value)) :=
  hz <-? poll_hz cfg ;;
  Ok [ ("sensor_ip", VStr (sensor_ip cfg));
       ("sensor_port", VInt (sensor_port cfg));
       ("axis_device_ids", VList (axis_device_ids cfg));
       ("force_range_n", VFloat (force_range_n cfg));
       ("poll_hz", VFloat hz);
       ("language", VStr (language cfg)) ].

Definition to_file_dict (cfg : AppConfig) : result (list (string * value)) :=
  hz <-? poll_hz cfg ;;
  npc <-? n_per_count cfg ;;
  Ok [ ("sensor_ip", VStr (sensor_ip cfg));
       ("sensor_port", VInt (sensor_port cfg));
       ("address", VInt (address cfg));
       ("axis_device_ids", VList (axis_device_ids cfg));
       ("timeout_s", VFloat (timeout_s cfg));
       ("force_range_n", VFloat (force_range_n cfg));
       ("counts_full_scale", VFloat (counts_full_scale cfg));
       ("poll_interval_ms", VInt (poll_interval_ms cfg));
       ("poll_hz", VFloat hz);
       ("language", VStr (language cfg));
       ("n_per_count", VFloat npc) ].

Definition lookup (key : string) (d : list (string * value)) : option value :=
  option_map snd (find (fun kv => String.eqb (fst kv) key) d).

Definition get_str (key : string) (d : list (string * value)) (default : string) : string :=
  match lookup key d with Some (VStr s) => s | _ => default end.

Definition get_int (key : string) (d : list (string * value)) (default : Z) : Z :=
  match lookup key d with Some (VInt z) => z | _ => default end.

Definition get_float (key : string) (d : list (string * value)) (default : float) : float :=
  match lookup key d with Some (VFloat f) => f | _ => default end.

Definition get_list (key : string) (d : list (string * value)) (default : list Z) : list Z :=
  match lookup key d with Some (VList l) => l | _ => default end.

(** The dataclass built from keyword arguments: a keyword that names no field is a
    [TypeError]; a field without a keyword takes its default.  (The
    dictionaries built in this file carry every value at the type its
    field is annotated with, and the getters read them at that type.) *)
Definition from_kwargs (kwargs : list (string * value)) : result AppConfig :=
  match find (fun kv => negb (existsb (String.eqb (fst kv)) field_names)) kwargs with
  | Some (key, _) =>
      Raise (TypeError
               ("AppConfig.__init__() got an unexpected keyword argument '" ++ key ++ "'"))
  | None =>
      Ok (mkConfig
            (get_str "sensor_ip" kwargs (sensor_ip defaults))
            (get_int "sensor_port" kwargs (sensor_port defaults))
            (get_int "address" kwargs (address defaults))
            (get_list "axis_device_ids" kwargs (axis_device_ids defaults))
            (get_float "timeout_s" kwargs (timeout_s defaults))
            (get_float "force_range_n" kwargs (force_range_n defaults))
            (get_float "counts_full_scale" kwargs (counts_full_scale defaults))
            (get_int "poll_interval_ms" kwargs (poll_interval_ms defaults))
            (get_str "language" kwargs (language defaults)))
  end.

(** The [updates] dictionary, as the settings form builds it: each key
    present or not, its value already of the type the function coerces
    it to. *)
Record Updates : Type := mkUpdates {
  u_sensor_ip : option string;
  u_sensor_port : option Z;
  u_axis_device_ids : option (list Z);
  u_force_range_n : option float;
  u_poll_hz : option float;
  u_poll_interval_ms : option Z;
  u_language : option string
}.

Definition or_else {A} (o : option A) (default : A) : A :=
  match o with Some a => a | None => default end.

Definition apply_updates (cfg : AppConfig) (updates : Updates) : result AppConfig :=
  file_dict <-? to_file_dict cfg ;;
  let base := filter (fun kv => negb (String.eqb (fst kv) "n_per_count")) file_dict in
  new_cfg <-? from_kwargs base ;;
  interval <-?
    match u_poll_hz updates with
    | Some hz =>
        if Float.leb hz Float.zero then Raise (ValueError "poll_hz must be > 0")
        else period <-? truediv (Float.of_int 1000) hz ;; py_round period
    | None => Ok (or_else (u_poll_interval_ms updates) (poll_interval_ms new_cfg))
    end ;;
  let lang :=
    match u_language updates with
    | Some l => if String.eqb l "zh" || String.eqb l "en" then l else language new_cfg
    | None => language new_cfg
    end in
  let new_cfg :=
    mkConfig
      (or_else (u_sensor_ip updates) (sensor_ip new_cfg))
      (or_else (u_sensor_port updates) (sensor_port new_cfg))
      (address new_cfg)
      (or_else (u_axis_device_ids updates) (axis_device_ids new_cfg))
      (timeout_s new_cfg)
      (or_else (u_force_range_n updates) (force_range_n new_cfg))
      (counts_full_scale new_cfg)
      interval
      lang in
  if (sensor_port new_cfg <=? 0) || (65535 <? sensor_port new_cfg)
  then Raise (ValueError "sensor_port out of range")
  else if Float.leb (force_range_n new_cfg) Float.zero
  then Raise (ValueError "force_range_n must be > 0")
  else if poll_interval_ms new_cfg <? 10
  then Raise (ValueError "poll_hz too high (poll_interval_ms must be >= 10)")
  else match axis_device_ids new_cfg with
       | [] => Raise (ValueError "axis_device_ids cannot be empty")
       | _ => Ok new_cfg
       end.

End Config.

(** ** The controller and its configuration ([qt_app.py]) *)

Section Configured.

Context {C : Type} `{ModbusTcpClient C}.

(** A [SensorController] together with its [cfg] attribute. *)
Record ConfiguredController : Type := mkConfigured {
  cfg : Config.AppConfig;
  controller : Controller.SensorController C
}.

Definition _build_sensor (cfg : Config.AppConfig) : result (SixAxisForceSensor C) :=
  npc <-? Config.n_per_count cfg ;;
  __init__ (Config.sensor_ip cfg) (AddrInt (Config.address cfg))
    (Config.axis_device_ids cfg) (Config.sensor_port cfg)
    (Some (Config.timeout_s cfg)) (Some npc)
    DEFAULT_FORCE_RANGE_N DEFAULT_COUNTS_FULL_SCALE.

(** [SensorController(cfg)]. *)
Definition controller_init (cfg : Config.AppConfig) : result ConfiguredController :=
  sensor <-? _build_sensor cfg ;;
  Ok (mkConfigured cfg (Controller.mkController sensor false "")).

(** [reconfigure]: the old engine is closed, whatever that raises being
    dropped; [cfg] is replaced; then the new engine is built, and only
    past that are the engine and the connection state replaced. *)
Definition reconfigure (new_cfg : Config.AppConfig) (cc : ConfiguredController)
    : result unit * ConfiguredController :=
  let (_, closed) := close (Controller.sensor (controller cc)) in
  match _build_sensor new_cfg with
  | Ok sensor => (Ok tt, mkConfigured new_cfg (Controller.mkController sensor false ""))
  | Raise e =>
      (Raise e,
       mkConfigured new_cfg
         (Controller.mkController closed
            (Controller.connected (controller cc))
            (Controller.last_error (controller cc))))
  end.

End Configured.

Arguments ConfiguredController C : clear implicits.

(** Three axes on a link that fails at the second axis of a read. *)
Definition second_axis_down_sensor : SixAxisForceSensor ScriptedClient :=
  scripted_sensor default_scale [1; 2; 3]
    (mkScripted None [Ok true]
       [reg 100; Raise (OtherError "ModbusIOException" "link down"); reg 300] []).

(** A controller on the ramp device, connected, with an old error text
    and a bias left from an earlier tare. *)
Definition used_controller : ConfiguredController RampClient :=
  mkConfigured Config.defaults
    (Controller.mkController
       (with_bias ramp_sensor
          (mkWrench (Float.of_int 5) Float.zero Float.zero Float.zero Float.zero Float.zero))
       true "Modbus OK").

(** The default configuration with a range of 10 N, and with a full
    scale of zero. *)
Definition range_10_config : Config.AppConfig :=
  Config.mkConfig "10.10.10.2" 502 0 [1; 2; 3] (Float.of_int 1)
    (Float.of_int 10) (Float.of_int 32768) 50 "zh".

Definition zero_full_scale_config : Config.AppConfig :=
  Config.mkConfig "10.10.10.2" 502 0 [1; 2; 3] (Float.of_int 1)
    (Float.of_int 20) Float.zero 50 "zh".

(** The default configuration with a poll interval of 10^400 ms, as a
    configuration file can hold it. *)
Definition huge_interval_config : Config.AppConfig :=
  Config.mkConfig "10.10.10.2" 502 0 [1; 2; 3] (Float.of_int 1)
    (Float.of_int 20) (Float.of_int 32768) (10 ^ 400) "zh".

(** No update at all. *)
Definition no_updates : Config.Updates :=
  Config.mkUpdates None None None None None None None.

(** * Properties *)

(** ** Floats: rounding an integer, and arithmetic at zero *)

Lemma digits2_pos_lower (m : positive) :
  2 ^ (Zpos (digits2_pos m) - 1) <= Zpos m.
Proof.
  induction m as [p IH | p IH | ]; cbn [digits2_pos].
  - rewrite Pos2Z.inj_succ.
    replace (Z.succ (Zpos (digits2_pos p)) - 1) with (Z.succ (Zpos (digits2_pos p) - 1)) by lia.
    rewrite Z.pow_succ_r by lia. lia.
  - rewrite Pos2Z.inj_succ.
    replace (Z.succ (Zpos (digits2_pos p)) - 1) with (Z.succ (Zpos (digits2_pos p) - 1)) by lia.
    rewrite Z.pow_succ_r by lia. lia.
  - reflexivity.
Qed.

Lemma shr_1_half (mrs : shr_record) :
  0 <= shr_m mrs -> shr_m (shr_1 mrs) = shr_m mrs / 2.
Proof.
  destruct mrs as [m r s]; cbn [shr_m]; intros Hm.
  destruct m as [ | [p | p | ] | p ]; cbn [shr_1 shr_m]; try lia.
  - reflexivity.
  - rewrite Pos2Z.inj_xI. apply Z.div_unique with 1; lia.
  - rewrite Pos2Z.inj_xO. apply Z.div_unique with 0; lia.
  - reflexivity.
Qed.

Lemma pow2_xO (p : positive) : 2 ^ Zpos p~0 = 2 ^ Zpos p * 2 ^ Zpos p.
Proof.
  rewrite <- Z.pow_add_r by lia. f_equal; lia.
Qed.

Lemma pow2_xI (p : positive) : 2 ^ Zpos p~1 = 2 * (2 ^ Zpos p * 2 ^ Zpos p).
Proof.
  rewrite <- Z.pow_add_r by lia. rewrite <- Z.pow_succ_r by lia. f_equal; lia.
Qed.

Lemma iter_shr_1_div (p : positive) : forall mrs,
  0 <= shr_m mrs -> shr_m (iter_pos shr_1 p mrs) = shr_m mrs / 2 ^ Zpos p.
Proof.
  induction p as [p IH | p IH | ]; intros mrs Hm; cbn [iter_pos].
  - assert (Hp : 0 < 2 ^ Zpos p) by (apply Z.pow_pos_nonneg; lia).
    assert (H1 : 0 <= shr_m (shr_1 mrs)).
    { rewrite shr_1_half by assumption. apply Z.div_pos; lia. }
    assert (H2 : 0 <= shr_m (iter_pos shr_1 p (shr_1 mrs))).
    { rewrite IH by assumption. apply Z.div_pos; assumption. }
    rewrite IH, IH, shr_1_half by assumption.
    rewrite !Z.div_div by lia.
    rewrite pow2_xI. f_equal; ring.
  - assert (Hp : 0 < 2 ^ Zpos p) by (apply Z.pow_pos_nonneg; lia).
    assert (H2 : 0 <= shr_m (iter_pos shr_1 p mrs)).
    { rewrite IH by assumption. apply Z.div_pos; assumption. }
    rewrite IH, IH by assumption.
    rewrite Z.div_div by lia.
    rewrite pow2_xO. reflexivity.
  - change (2 ^ 1) with 2. apply shr_1_half; assumption.
Qed.

Lemma shr_fexp_positive (m e : Z) (l : location) :
  0 < m -> -1000 <= e ->
  0 < shr_m (fst (shr_fexp Float.prec Float.emax m e l)) /\
  e <= snd (shr_fexp Float.prec Float.emax m e l).
Proof.
  intros Hm He.
  destruct m as [ | p | p ]; try lia.
  unfold shr_fexp, Zdigits2.
  assert (Hrec : shr_m (shr_record_of_loc (Zpos p) l) = Zpos p).
  { destruct l as [ | [ | | ] ]; reflexivity. }
  pose proof (digits2_pos_lower p) as Hd.
  set (d := Zpos (digits2_pos p)) in *.
  assert (Hfexp : fexp Float.prec Float.emax (d + e) = d + e - 53).
  { unfold fexp, emin, Float.prec, Float.emax. subst d. lia. }
  rewrite Hfexp.
  replace (d + e - 53 - e) with (d - 53) by lia.
  unfold shr.
  destruct (d - 53) as [ | q | q ] eqn:Hn; cbn [fst snd]; rewrite ?Hrec; try lia.
  rewrite iter_shr_1_div by (rewrite Hrec; lia).
  rewrite Hrec. split; [ | lia ].
  apply Z.div_str_pos. split; [ apply Z.pow_pos_nonneg; lia | ].
  apply Z.le_trans with (2 ^ (d - 1)); [ | assumption ].
  apply Z.pow_le_mono_r; lia.
Qed.

Lemma round_nearest_even_positive (m : Z) (l : location) :
  0 < m -> 0 < round_nearest_even m l.
Proof.
  intros Hm. destruct l as [ | [ | | ] ]; cbn [round_nearest_even]; try lia.
  destruct (Z.even m); lia.
Qed.

Lemma binary_round_aux_positive (sx : bool) (m e : Z) (l : location) :
  0 < m -> -1000 <= e ->
  (exists m' e', binary_round_aux Float.prec Float.emax sx m e l = S754_finite sx m' e') \/
  binary_round_aux Float.prec Float.emax sx m e l = S754_infinity sx.
Proof.
  intros Hm He. unfold binary_round_aux.
  destruct (shr_fexp_positive m e l Hm He) as [H1 H1e].
  destruct (shr_fexp Float.prec Float.emax m e l) as [mrs1 e1]; cbn [fst snd] in H1, H1e.
  pose proof (round_nearest_even_positive (shr_m mrs1) (loc_of_shr_record mrs1) H1) as Hr.
  destruct (shr_fexp_positive _ e1 loc_Exact Hr ltac:(lia)) as [H2 _].
  destruct (shr_fexp Float.prec Float.emax _ e1 loc_Exact) as [mrs2 e2]; cbn [fst] in H2.
  destruct (shr_m mrs2) as [ | q | q ]; try lia.
  destruct (e2 <=? Float.emax - Float.prec); [ left; eauto | right; reflexivity ].
Qed.

Lemma of_int_positive (z : Z) :
  0 < z -> Float.is_positive (Float.of_int z) = true.
Proof.
  intros Hz. destruct z as [ | p | p ]; try lia.
  unfold Float.of_int, binary_normalize, binary_round.
  assert (Hal : -1000 <= snd (shl_align p 0 (fexp Float.prec Float.emax (Zpos (digits2_pos p) + 0)))).
  { unfold shl_align, fexp, emin, Float.prec, Float.emax.
    destruct (Z.max (Zpos (digits2_pos p) + 0 - 53) (3 - 1024 - 53) - 0) eqn:E; cbn [snd]; lia. }
  destruct (shl_align p 0 _) as [mz ez]; cbn [snd] in Hal.
  destruct (binary_round_aux_positive false (Zpos mz) ez loc_Exact ltac:(lia) Hal)
    as [(m' & e' & ->) | ->]; reflexivity.
Qed.

Lemma of_int_0 : Float.of_int 0 = Float.zero.
Proof. reflexivity. Qed.

Lemma sub_zero_r (x : float) : Float.sub x Float.zero = x.
Proof. destruct x as [ [ | ] | [ | ] | | s m e ]; reflexivity. Qed.

Lemma add_zero_zero : Float.add Float.zero Float.zero = Float.zero.
Proof. reflexivity. Qed.

Lemma not_leb_zero_finite (x : float) :
  Float.is_finite x = true -> Float.leb x Float.zero = false ->
  exists m e, x = S754_finite false m e.
Proof.
  destruct x as [ s | s | | [ | ] m e ]; cbn; try discriminate; eauto.
Qed.

Lemma mul_zero_l (x : float) :
  Float.is_finite x = true -> Float.leb x Float.zero = false ->
  Float.mul Float.zero x = Float.zero.
Proof.
  intros Hf Hl. destruct (not_leb_zero_finite x Hf Hl) as (m & e & ->). reflexivity.
Qed.

Lemma truediv_zero_l (n : float) :
  Float.is_positive n = true -> truediv Float.zero n = Ok Float.zero.
Proof.
  destruct n as [ s | [ | ] | | [ | ] m e ]; cbn; try discriminate; reflexivity.
Qed.

Lemma truediv_positive (x n : float) :
  Float.is_positive n = true -> truediv x n = Ok (Float.div x n).
Proof.
  destruct n as [ s | [ | ] | | [ | ] m e ]; cbn; try discriminate; reflexivity.
Qed.

(** ** Conversion unit *)

Lemma mask_u16_range (r : Z) : 0 <= Z.land r 0xFFFF <= 65535.
Proof.
  change 0xFFFF with (Z.ones 16). rewrite Z.land_ones by lia.
  change (2 ^ 16) with 65536. change (Z.ones 16) with 65535.
  pose proof (Z.mod_pos_bound r 65536 ltac:(lia)). lia.
Qed.

Lemma mask_u16_id (r : Z) : 0 <= r <= 65535 -> Z.land r 0xFFFF = r.
Proof.
  intros Hr. change (Z.land r 0xFFFF) with (Z.land r (Z.ones 16)).
  rewrite Z.land_ones by lia.
  change (2 ^ 16) with 65536. apply Z.mod_small. lia.
Qed.

(** The bit of weight [2^n], alone. *)
Lemma land_pow2 (a n : Z) :
  0 <= n -> Z.land a (2 ^ n) = if Z.testbit a n then 2 ^ n else 0.
Proof.
  intros Hn. apply Z.bits_inj'. intros m Hm.
  rewrite Z.land_spec, Z.pow2_bits_eqb by lia.
  destruct (Z.testbit a n) eqn:E.
  - rewrite Z.pow2_bits_eqb by lia.
    destruct (Z.eqb_spec n m) as [<- | Hne]; [ rewrite E | rewrite andb_false_r ]; reflexivity.
  - rewrite Z.bits_0.
    destruct (Z.eqb_spec n m) as [<- | Hne]; [ rewrite E | rewrite andb_false_r ]; reflexivity.
Qed.

(** On 16 bits, bit 15 is set from 32768 on. *)
Lemma testbit_15 (v : Z) :
  0 <= v <= 65535 -> Z.testbit v 15 = negb (v <? 32768).
Proof.
  intros Hv.
  pose proof (Z.div_mod v 32768 ltac:(lia)) as Hdm.
  pose proof (Z.mod_pos_bound v 32768 ltac:(lia)) as Hmod.
  destruct (Z.ltb_spec v 32768) as [Hlt | Hge]; cbn [negb].
  - apply Z.testbit_false; [ lia | ]. change (2 ^ 15) with 32768.
    rewrite Z.div_small by lia. reflexivity.
  - apply Z.testbit_true; [ lia | ]. change (2 ^ 15) with 32768.
    assert (Hq : v / 32768 = 1) by nia. rewrite Hq. reflexivity.
Qed.

Lemma u16_to_s16_toSigned (v : Z) :
  0 <= v <= 65535 -> _u16_to_s16 v = toSigned v.
Proof.
  intros Hv. unfold _u16_to_s16, toSigned. cbv zeta.
  rewrite mask_u16_id by exact Hv.
  assert (Hbit : Z.land v 0x8000 = if Z.testbit v 15 then 32768 else 0)
    by (apply (land_pow2 v 15); lia).
  rewrite Hbit, testbit_15 by exact Hv.
  destruct (v <? 32768); reflexivity.
Qed.

Lemma toUnsigned_range (c : Z) : -32768 <= c <= 32767 -> 0 <= toUnsigned c <= 65535.
Proof. unfold toUnsigned. destruct (Z.ltb_spec c 0); lia. Qed.

Lemma toSigned_toUnsigned (c : Z) : -32768 <= c <= 32767 -> toSigned (toUnsigned c) = c.
Proof.
  unfold toSigned, toUnsigned. intros Hc.
  destruct (Z.ltb_spec c 0); [ destruct (Z.ltb_spec (c + 65536) 32768) | destruct (Z.ltb_spec c 32768) ]; lia.
Qed.

(** ** Engine: what a method leaves untouched *)

Ltac run := unfold bind, ret, raise, lift in *; cbn [fst snd] in *.

Section EngineFacts.

Context {C : Type} `{ModbusTcpClient C}.

Implicit Types s : SixAxisForceSensor C.

Lemma with_client_twice s c c' : with_client (with_client s c) c' = with_client s c'.
Proof. reflexivity. Qed.

Lemma only_client_refl s : only_client s s.
Proof. destruct s; reflexivity. Qed.

Lemma only_client_with_client s c : only_client s (with_client s c).
Proof. reflexivity. Qed.

Lemma only_client_trans s1 s2 s3 :
  only_client s1 s2 -> only_client s2 s3 -> only_client s1 s3.
Proof. unfold only_client. intros -> ->. reflexivity. Qed.

Lemma only_client_fields s s' :
  only_client s s' ->
  _n_per_count s' = _n_per_count s /\ axis_device_ids s' = axis_device_ids s /\
  addresses s' = addresses s /\ _bias s' = _bias s.
Proof. intros ->. repeat split. Qed.

Lemma read_u16_only_client d a s : only_client s (snd (_read_u16 d a s)).
Proof.
  unfold _read_u16. destruct (try_variants _ _ _ _) as [r c]. apply only_client_with_client.
Qed.

Lemma read_axes_only_client axes : forall values s,
  only_client s (snd (read_axes axes values s)).
Proof.
  induction axes as [ | [d a] rest IH ]; intros values s; cbn [read_axes].
  - apply only_client_refl.
  - run. pose proof (read_u16_only_client d a s) as H1.
    destruct (_read_u16 d a s) as [[v | e] s1]; cbn [snd] in *.
    + eapply only_client_trans; [ exact H1 | apply IH ].
    + exact H1.
Qed.

Lemma read_raw_u16_only_client s : only_client s (snd (read_raw_u16 s)).
Proof. apply read_axes_only_client. Qed.

Lemma read_counts_only_client s : only_client s (snd (read_counts s)).
Proof.
  unfold read_counts. run. pose proof (read_raw_u16_only_client s) as H1.
  destruct (read_raw_u16 s) as [[raw | e] s1]; exact H1.
Qed.

(** [get_wrench], read off the raw registers: the counts scaled, less the
    bias unless [unbiased]. *)
Lemma get_wrench_eq unbiased s :
  get_wrench unbiased s =
  match read_raw_u16 s with
  | (Ok raw, s') =>
      let w := scaled (_n_per_count s) (map _u16_to_s16 raw) in
      (Ok (if unbiased then w else minus w (_bias s)), s')
  | (Raise e, s') => (Raise e, s')
  end.
Proof.
  unfold get_wrench, read_counts. run.
  pose proof (read_raw_u16_only_client s) as H1.
  destruct (read_raw_u16 s) as [[raw | e] s1]; cbn [snd] in H1; [ | reflexivity ].
  destruct (only_client_fields _ _ H1) as (-> & _ & _ & ->).
  destruct unbiased; reflexivity.
Qed.

Lemma get_wrench_only_client unbiased s : only_client s (snd (get_wrench unbiased s)).
Proof.
  rewrite get_wrench_eq. pose proof (read_raw_u16_only_client s) as H1.
  destruct (read_raw_u16 s) as [[raw | e] s1]; exact H1.
Qed.

Lemma unbiased_reads_only_client n : forall s, only_client s (snd (unbiased_reads n s)).
Proof.
  induction n as [ | n IH ]; intros s; cbn [unbiased_reads].
  - apply only_client_refl.
  - run. pose proof (get_wrench_only_client true s) as H1.
    destruct (get_wrench true s) as [[w | e] s1]; cbn [snd] in *; [ | exact H1 ].
    specialize (IH s1).
    destruct (unbiased_reads n s1) as [[ws | e] s2]; cbn [snd] in *;
      eapply only_client_trans; eassumption.
Qed.

(** ** Register reader *)

Lemma try_variants_range d calls : forall last c v c',
  try_variants d calls last c = (Ok v, c') -> 0 <= v <= 65535.
Proof.
  induction calls as [ | cl rest IH ]; intros last c v c'; cbn [try_variants].
  - discriminate.
  - destruct (read_holding_registers cl c) as [[[ | | [ | r regs]] | e] c1];
      try (apply IH).
    + intros [= <- _]. apply mask_u16_range.
    + destruct e; try discriminate. apply IH.
Qed.

Lemma read_u16_range d a s v s' :
  _read_u16 d a s = (Ok v, s') -> 0 <= v <= 65535.
Proof.
  unfold _read_u16.
  destruct (try_variants _ _ _ _) as [r c] eqn:E. intros [= -> _].
  eapply try_variants_range; eassumption.
Qed.

Lemma read_axes_Ok axes : forall values s out s',
  read_axes axes values s = (Ok out, s') ->
  List.length out = (List.length values + List.length axes)%nat /\
  (Forall (fun v => 0 <= v <= 65535) values -> Forall (fun v => 0 <= v <= 65535) out).
Proof.
  induction axes as [ | [d a] rest IH ]; intros values s out s'; cbn [read_axes].
  - run. intros [= <- _]. cbn [List.length]. split; [ lia | trivial ].
  - run. destruct (_read_u16 d a s) as [[v | e] s1] eqn:E; [ | discriminate ].
    intros Hrest. apply IH in Hrest. destruct Hrest as [Hlen Hall].
    rewrite length_app in Hlen. cbn [List.length] in *. split; [ lia | ].
    intros Hv. apply Hall. apply Forall_app. split; [ exact Hv | ].
    constructor; [ | constructor ]. eapply read_u16_range; eassumption.
Qed.

Lemma read_raw_u16_Ok s raw s' :
  read_raw_u16 s = (Ok raw, s') ->
  List.length raw = n_axes s /\ Forall (fun v => 0 <= v <= 65535) raw.
Proof.
  unfold read_raw_u16, n_axes. intros Hr. apply read_axes_Ok in Hr.
  destruct Hr as [Hlen Hall]. split; [ exact Hlen | apply Hall; constructor ].
Qed.

Lemma map_u16_to_s16 raw :
  Forall (fun v => 0 <= v <= 65535) raw -> map _u16_to_s16 raw = map toSigned raw.
Proof.
  induction 1 as [ | v raw Hv _ IH ]; cbn [map]; [ reflexivity | ].
  rewrite IH, u16_to_s16_toSigned by assumption. reflexivity.
Qed.

(** ** The sampling loop *)

Lemma unbiased_reads_length n : forall s ws s',
  unbiased_reads n s = (Ok ws, s') -> List.length ws = n.
Proof.
  induction n as [ | n IH ]; intros s ws s'; cbn [unbiased_reads]; run.
  - intros [= <- _]. reflexivity.
  - destruct (get_wrench true s) as [[w | e] s1]; [ | discriminate ].
    destruct (unbiased_reads n s1) as [[ws' | e] s2] eqn:E; [ | discriminate ].
    intros [= <- _]. cbn [List.length]. f_equal. eapply IH; eassumption.
Qed.

(** The pause of the loop, by the delay. *)
Lemma pause_accepted delay_s s :
  delay_accepted delay_s = true ->
  (if Float.ltb Float.zero delay_s then sleep delay_s else ret tt) s = (Ok tt, s).
Proof.
  unfold delay_accepted, sleep, lift, ret.
  destruct (Float.ltb Float.zero delay_s); [ | reflexivity ].
  destruct (sleep_result delay_s) as [[] | e]; [ reflexivity | discriminate ].
Qed.

Lemma pause_refused delay_s s :
  delay_accepted delay_s = false ->
  (if Float.ltb Float.zero delay_s then sleep delay_s else ret tt) s =
  (Raise (OtherError "OverflowError" "timestamp too large to convert to C _PyTime_t"), s).
Proof.
  unfold delay_accepted, sleep, lift, ret.
  destruct (Float.ltb Float.zero delay_s) eqn:Epos; [ | discriminate ].
  unfold sleep_result.
  destruct delay_s as [ sg | [ | ] | | [ | ] m e ]; cbn in Epos; try discriminate.
  - intros _. reflexivity.
  - change (Float.ltb (S754_finite false m e) Float.zero) with false.
    destruct (Float.leb _ _ && Float.ltb _ _); [ discriminate | intros _; reflexivity ].
Qed.

(** The loop adds up what [n] consecutive unbiased reads return, and
    stops with the first that raises. *)
Lemma bias_loop_reads n delay_s :
  delay_accepted delay_s = true ->
  forall sum_fx sum_fy sum_fz s,
  bias_loop n delay_s sum_fx sum_fy sum_fz s =
  match unbiased_reads n s with
  | (Ok ws, s') =>
      (Ok (fold_left Float.add (map fx ws) sum_fx,
           fold_left Float.add (map fy ws) sum_fy,
           fold_left Float.add (map fz ws) sum_fz), s')
  | (Raise e, s') => (Raise e, s')
  end.
Proof.
  intros Hd. induction n as [ | n IH ]; intros sum_fx sum_fy sum_fz s;
    cbn [bias_loop unbiased_reads]; [ reflexivity | ].
  unfold bind at 1 3. destruct (get_wrench true s) as [[w | e] s1]; [ | reflexivity ].
  unfold bind at 1. rewrite (pause_accepted delay_s s1 Hd), IH.
  unfold bind, ret. destruct (unbiased_reads n s1) as [[ws | e] s2]; reflexivity.
Qed.

(** With a delay that [time.sleep] refuses, the loop ends at its first
    pause. *)
Lemma bias_loop_refused n delay_s sum_fx sum_fy sum_fz s :
  delay_accepted delay_s = false ->
  bias_loop (S n) delay_s sum_fx sum_fy sum_fz s =
  match get_wrench true s with
  | (Ok w, s') =>
      (Raise (OtherError "OverflowError" "timestamp too large to convert to C _PyTime_t"), s')
  | (Raise e, s') => (Raise e, s')
  end.
Proof.
  intros Hd. cbn [bias_loop]. unfold bind at 1.
  destruct (get_wrench true s) as [[w | e] s1]; [ | reflexivity ].
  unfold bind at 1. rewrite (pause_refused delay_s s1 Hd). reflexivity.
Qed.

(** A read that raises after [k] good ones, inside the [n] asked for,
    is what [n] consecutive reads come to. *)
Lemma unbiased_reads_abort k : forall n s ws sk e sk',
  (k < n)%nat ->
  unbiased_reads k s = (Ok ws, sk) ->
  get_wrench true sk = (Raise e, sk') ->
  unbiased_reads n s = (Raise e, sk').
Proof.
  induction k as [ | k IH ]; intros n s ws sk e sk' Hk; cbn [unbiased_reads]; run.
  - intros [= _ <-] Hread. destruct n as [ | n ]; [ lia | ].
    cbn [unbiased_reads]. run. rewrite Hread. reflexivity.
  - destruct (get_wrench true s) as [[w | e0] s1] eqn:E1; [ | discriminate ].
    destruct (unbiased_reads k s1) as [[ws' | e0] s2] eqn:E2; [ | discriminate ].
    intros [= _ <-] Hread. destruct n as [ | n ]; [ lia | ].
    cbn [unbiased_reads]. run. rewrite E1.
    rewrite (IH n s1 ws' s2 e sk' ltac:(lia) E2 Hread). reflexivity.
Qed.

End EngineFacts.

(** ** Bias *)

Section BiasFacts.

Context {C : Type} `{ModbusTcpClient C}.

Implicit Types s : SixAxisForceSensor C.

Lemma bias_nonpositive samples delay_s s :
  samples <= 0 -> bias samples delay_s s = (Raise (ValueError "samples must be > 0"), s).
Proof.
  intros Hs. unfold bias. destruct (Z.leb_spec samples 0); [ reflexivity | lia ].
Qed.

(** [bias] in terms of the reads it makes. *)
Lemma bias_reads samples delay_s s :
  0 < samples ->
  delay_accepted delay_s = true ->
  bias samples delay_s s =
  match unbiased_reads (Z.to_nat samples) s with
  | (Ok ws, s') => (Ok (mean_wrench ws), with_bias s' (mean_wrench ws))
  | (Raise e, s') => (Raise e, s')
  end.
Proof.
  intros Hs Hd. unfold bias. destruct (Z.leb_spec samples 0); [ lia | ].
  run. rewrite (bias_loop_reads _ _ Hd).
  destruct (unbiased_reads (Z.to_nat samples) s) as [[ws | e] s'] eqn:E; [ | reflexivity ].
  apply unbiased_reads_length in E.
  rewrite !truediv_positive by (apply of_int_positive; exact Hs).
  unfold mean_wrench, mean, fsum. rewrite !length_map, E, Z2Nat.id by lia.
  reflexivity.
Qed.

(** [bias] with a delay that [time.sleep] refuses: one read, and the
    [OverflowError] of the pause behind it. *)
Lemma bias_refused samples delay_s s :
  0 < samples ->
  delay_accepted delay_s = false ->
  bias samples delay_s s =
  match get_wrench true s with
  | (Ok w, s') =>
      (Raise (OtherError "OverflowError" "timestamp too large to convert to C _PyTime_t"), s')
  | (Raise e, s') => (Raise e, s')
  end.
Proof.
  intros Hs Hd. unfold bias. destruct (Z.leb_spec samples 0); [ lia | ].
  destruct (Z.to_nat samples) as [ | n ] eqn:En; [ lia | ].
  unfold bind at 1. rewrite (bias_loop_refused n delay_s _ _ _ s Hd).
  destruct (get_wrench true s) as [[w | e] s']; reflexivity.
Qed.

(** A [bias] that returns has made its reads, and stored and returned
    the wrench of their means. *)
Lemma bias_Ok_inv samples delay_s s w s' :
  bias samples delay_s s = (Ok w, s') ->
  0 < samples /\ delay_accepted delay_s = true /\
  exists ws s1,
    unbiased_reads (Z.to_nat samples) s = (Ok ws, s1) /\
    w = mean_wrench ws /\ s' = with_bias s1 (mean_wrench ws).
Proof.
  destruct (Z.leb_spec samples 0) as [Hs | Hs].
  { rewrite bias_nonpositive by exact Hs. discriminate. }
  destruct (delay_accepted delay_s) eqn:Hd.
  - rewrite bias_reads by assumption.
    destruct (unbiased_reads (Z.to_nat samples) s) as [[ws | e] s1]; [ | discriminate ].
    intros [= <- <-]. split; [ exact Hs | split; [ reflexivity | ] ].
    exists ws, s1. repeat split.
  - rewrite bias_refused by assumption.
    destruct (get_wrench true s) as [[w0 | e] s1]; discriminate.
Qed.

Lemma bias_only_client_on_raise samples delay_s s e s' :
  bias samples delay_s s = (Raise e, s') -> only_client s s'.
Proof.
  destruct (Z.leb_spec samples 0) as [Hs | Hs].
  { rewrite bias_nonpositive by exact Hs. intros [= _ <-]. apply only_client_refl. }
  destruct (delay_accepted delay_s) eqn:Hd.
  - rewrite bias_reads by assumption.
    pose proof (unbiased_reads_only_client (Z.to_nat samples) s) as Ho.
    destruct (unbiased_reads (Z.to_nat samples) s) as [[ws | e0] s1]; [ discriminate | ].
    intros [= _ <-]. exact Ho.
  - rewrite bias_refused by assumption.
    pose proof (get_wrench_only_client true s) as Ho.
    destruct (get_wrench true s) as [[w | e0] s1]; intros [= _ <-]; exact Ho.
Qed.

Lemma delay_zero_accepted : delay_accepted Float.zero = true.
Proof. reflexivity. Qed.

(** With a zero bias the biased read is the unbiased one. *)
Lemma get_wrench_zero_bias s :
  _bias s = zero_wrench -> get_wrench false s = get_wrench true s.
Proof.
  intros Hb. rewrite !get_wrench_eq, Hb.
  destruct (read_raw_u16 s) as [[raw | e] s']; [ | reflexivity ].
  cbn zeta. unfold minus, scaled, zero_wrench; cbn [fx fy fz tx ty tz].
  rewrite !sub_zero_r. reflexivity.
Qed.

End BiasFacts.

(** ** Missing channels *)

Lemma div_zero_l (n : float) :
  Float.is_positive n = true -> Float.div Float.zero n = Float.zero.
Proof.
  destruct n as [ s | [ | ] | | [ | ] m e ]; cbn; try discriminate; reflexivity.
Qed.

Lemma fsum_zeros (l : list float) :
  Forall (fun x => x = Float.zero) l -> fsum l = Float.zero.
Proof.
  unfold fsum. induction 1 as [ | x l -> _ IH ]; cbn [fold_left]; [ reflexivity | ].
  rewrite add_zero_zero. exact IH.
Qed.

Lemma mean_zeros (l : list float) :
  l <> [] -> Forall (fun x => x = Float.zero) l -> mean l = Float.zero.
Proof.
  intros Hne Hall. unfold mean. rewrite fsum_zeros by exact Hall.
  apply div_zero_l, of_int_positive.
  destruct l; [ congruence | cbn [List.length]; lia ].
Qed.

Lemma scaled_missing (npc : float) (counts : list Z) :
  Float.is_finite npc = true -> Float.leb npc Float.zero = false ->
  missing_channels_zero (List.length counts) (scaled npc counts).
Proof.
  intros Hf Hl. unfold missing_channels_zero, scaled, count_or_zero; cbn [fx fy fz].
  repeat split; intros Hn;
    match goal with
    | |- context [(?i <? ?n)%nat] => destruct (Nat.ltb_spec i n); [ lia | ]
    end; rewrite of_int_0; apply mul_zero_l; assumption.
Qed.

Lemma minus_missing (n : nat) (w b : Wrench) :
  missing_channels_zero n w -> missing_channels_zero n b ->
  missing_channels_zero n (minus w b).
Proof.
  intros (Hx & Hy & Hz) (Bx & By & Bz). unfold minus.
  repeat split; cbn [fx fy fz]; intros Hn;
    [ rewrite Hx, Bx | rewrite Hy, By | rewrite Hz, Bz ]; auto.
Qed.

Lemma mean_wrench_missing (n : nat) (ws : list Wrench) :
  ws <> [] -> Forall (missing_channels_zero n) ws ->
  missing_channels_zero n (mean_wrench ws).
Proof.
  intros Hne Hall. unfold mean_wrench.
  assert (Hmap : forall f : Wrench -> float, map f ws <> []).
  { intros f. destruct ws; [ congruence | discriminate ]. }
  repeat split; cbn [fx fy fz]; intros Hn; apply mean_zeros; try apply Hmap;
    apply Forall_map; eapply Forall_impl; try exact Hall;
    intros w (Hx & Hy & Hz); auto.
Qed.

Section DegradedFacts.

Context {C : Type} `{ModbusTcpClient C}.

Implicit Types s : SixAxisForceSensor C.

Lemma only_client_n_axes s s' : only_client s s' -> n_axes s' = n_axes s.
Proof. intros ->. reflexivity. Qed.

Lemma only_client_invariant s s' :
  only_client s s' -> degraded_invariant s -> degraded_invariant s'.
Proof. intros ->. exact (fun H => H). Qed.

Lemma get_wrench_unbiased_missing s w s' :
  Float.is_finite (_n_per_count s) = true ->
  Float.leb (_n_per_count s) Float.zero = false ->
  get_wrench true s = (Ok w, s') ->
  missing_channels_zero (n_axes s) w.
Proof.
  intros Hf Hl. rewrite get_wrench_eq.
  destruct (read_raw_u16 s) as [[raw | e] s1] eqn:E; [ | discriminate ].
  intros [= <- _]. apply read_raw_u16_Ok in E. destruct E as [<- _].
  rewrite <- (length_map _u16_to_s16 raw). apply scaled_missing; assumption.
Qed.

Lemma get_wrench_missing unbiased s w s' :
  degraded_invariant s ->
  get_wrench unbiased s = (Ok w, s') ->
  missing_channels_zero (n_axes s) w.
Proof.
  intros (Hf & Hl & Hb). destruct unbiased.
  - apply get_wrench_unbiased_missing; assumption.
  - rewrite get_wrench_eq.
    destruct (read_raw_u16 s) as [[raw | e] s1] eqn:E; [ | discriminate ].
    intros [= <- _]. apply minus_missing; [ | exact Hb ].
    apply read_raw_u16_Ok in E. destruct E as [<- _].
    rewrite <- (length_map _u16_to_s16 raw). apply scaled_missing; assumption.
Qed.

Lemma unbiased_reads_missing n : forall s ws s',
  Float.is_finite (_n_per_count s) = true ->
  Float.leb (_n_per_count s) Float.zero = false ->
  unbiased_reads n s = (Ok ws, s') ->
  Forall (missing_channels_zero (n_axes s)) ws.
Proof.
  induction n as [ | n IH ]; intros s ws s' Hf Hl; cbn [unbiased_reads]; run.
  - intros [= <- _]. constructor.
  - destruct (get_wrench true s) as [[w | e] s1] eqn:E1; [ | discriminate ].
    destruct (unbiased_reads n s1) as [[ws' | e] s2] eqn:E2; [ | discriminate ].
    intros [= <- _].
    pose proof (get_wrench_only_client true s) as Ho. rewrite E1 in Ho. cbn [snd] in Ho.
    constructor.
    + eapply get_wrench_unbiased_missing; eassumption.
    + rewrite <- (only_client_n_axes _ _ Ho).
      destruct (only_client_fields _ _ Ho) as (Hn & _).
      eapply IH; [ rewrite Hn; exact Hf | rewrite Hn; exact Hl | exact E2 ].
Qed.

Lemma init_scale_and_bias ip address ids port timeout npc range full s :
  __init__ ip address ids port timeout npc range full = Ok s ->
  Float.leb (_n_per_count s) Float.zero = false /\ _bias s = zero_wrench.
Proof.
  unfold __init__, rbind.
  destruct (match npc with Some v => Ok v | None => truediv range full end)
    as [v | e]; [ | discriminate ].
  destruct (Float.leb v Float.zero) eqn:El; [ discriminate | ].
  destruct (match address with
            | AddrInt a => Ok (map (fun _ => a) ids)
            | AddrSeq l => _
            end) as [addrs | e]; [ | discriminate ].
  destruct (_create_client ip port timeout) as [c | e]; [ | discriminate ].
  intros [= <-]. split; [ exact El | reflexivity ].
Qed.

Lemma zero_wrench_missing (n : nat) : missing_channels_zero n zero_wrench.
Proof. repeat split. Qed.

Lemma bias_invariant samples delay_s s :
  degraded_invariant s -> degraded_invariant (snd (bias samples delay_s s)).
Proof.
  intros Hinv. destruct (bias samples delay_s s) as [[w | e] s'] eqn:E; cbn [snd].
  - apply bias_Ok_inv in E. destruct E as (Hs & _ & ws & s1 & Er & _ & ->).
    pose proof (unbiased_reads_only_client (Z.to_nat samples) s) as Ho.
    rewrite Er in Ho. cbn [snd] in Ho.
    destruct Hinv as (Hf & Hl & Hb).
    destruct (only_client_fields _ _ Ho) as (Hn & _).
    unfold degraded_invariant. cbn [_n_per_count with_bias]. rewrite Hn.
    split; [ exact Hf | split; [ exact Hl | ] ].
    change (missing_channels_zero (n_axes s1) (mean_wrench ws)).
    rewrite (only_client_n_axes _ _ Ho).
    apply mean_wrench_missing.
    + apply unbiased_reads_length in Er. destruct ws; [ cbn in Er; lia | discriminate ].
    + eapply unbiased_reads_missing; eassumption.
  - eapply only_client_invariant; [ | exact Hinv ].
    eapply bias_only_client_on_raise; eassumption.
Qed.

Lemma state_after_invariant m s :
  degraded_invariant s ->
  Float.is_finite (_n_per_count (state_after m s)) = true ->
  degraded_invariant (state_after m s).
Proof.
  intros Hinv Hfin. destruct m as [ v | | | | | u | n d | ]; cbn [state_after] in *.
  - unfold set_n_per_count in *.
    destruct (Float.leb v Float.zero) eqn:El; cbn [snd] in *; [ exact Hinv | ].
    destruct Hinv as (_ & _ & Hb). split; [ | split ]; assumption.
  - unfold connect. destruct (client_connect (_client s)) as [r c]. exact Hinv.
  - unfold close. destruct (client_close (_client s)) as [r c]. exact Hinv.
  - eapply only_client_invariant; [ apply read_raw_u16_only_client | exact Hinv ].
  - eapply only_client_invariant; [ apply read_counts_only_client | exact Hinv ].
  - eapply only_client_invariant; [ apply get_wrench_only_client | exact Hinv ].
  - apply bias_invariant. exact Hinv.
  - destruct Hinv as (Hf & Hl & _).
    split; [ exact Hf | split; [ exact Hl | apply zero_wrench_missing ] ].
Qed.

Lemma reachable_finite_invariant s : reachable_finite s -> degraded_invariant s.
Proof.
  induction 1 as [ ip address ids port timeout npc range full s Hinit Hfin
                 | s m _ IH Hfin ].
  - destruct (init_scale_and_bias _ _ _ _ _ _ _ _ _ Hinit) as [Hl Hb].
    split; [ exact Hfin | split; [ exact Hl | ] ].
    rewrite Hb. apply zero_wrench_missing.
  - apply state_after_invariant; assumption.
Qed.

(** The scale of an engine is never zero or below, whatever was done to
    it. *)
Lemma state_after_scale m s :
  Float.leb (_n_per_count s) Float.zero = false ->
  Float.leb (_n_per_count (state_after m s)) Float.zero = false.
Proof.
  intros Hl. destruct m as [ v | | | | | u | n d | ]; cbn [state_after].
  - unfold set_n_per_count.
    destruct (Float.leb v Float.zero) eqn:El; cbn [snd]; assumption.
  - unfold connect. destruct (client_connect (_client s)) as [r c]. exact Hl.
  - unfold close. destruct (client_close (_client s)) as [r c]. exact Hl.
  - destruct (only_client_fields _ _ (read_raw_u16_only_client s)) as (-> & _). exact Hl.
  - destruct (only_client_fields _ _ (read_counts_only_client s)) as (-> & _). exact Hl.
  - destruct (only_client_fields _ _ (get_wrench_only_client u s)) as (-> & _). exact Hl.
  - destruct (bias n d s) as [[w | e] s'] eqn:E; cbn [snd].
    + apply bias_Ok_inv in E. destruct E as (Hs & _ & ws & s1 & Er & _ & ->).
      pose proof (unbiased_reads_only_client (Z.to_nat n) s) as Ho.
      rewrite Er in Ho. cbn [snd] in Ho.
      destruct (only_client_fields _ _ Ho) as (Hn & _).
      cbn [_n_per_count with_bias]. rewrite Hn. exact Hl.
    + apply bias_only_client_on_raise in E.
      destruct (only_client_fields _ _ E) as (-> & _). exact Hl.
  - exact Hl.
Qed.

Lemma reachable_scale_not_nonpositive s :
  reachable s -> Float.leb (_n_per_count s) Float.zero = false.
Proof.
  induction 1 as [ ip address ids port timeout npc range full s Hinit | s m _ IH ].
  - apply (init_scale_and_bias _ _ _ _ _ _ _ _ _ Hinit).
  - apply state_after_scale. exact IH.
Qed.

End DegradedFacts.

(** ** The fallback of the reader *)

Section ReaderFacts.

Context {C : Type} `{ModbusTcpClient C}.

(** Attempts that all move on are walked through, their last
    [TypeError] remembered. *)
Lemma try_variants_app d pre : forall rest last (c : C) outs c1,
  replay pre c = (outs, c1) ->
  forallb moves_on outs = true ->
  try_variants d (pre ++ rest)%list last c = try_variants d rest (last_TypeError outs last) c1.
Proof.
  induction pre as [ | cl pre IH ]; intros rest last c outs c1; cbn [replay app].
  - intros [= <- <-] _. reflexivity.
  - cbn [try_variants].
    destruct (read_holding_registers cl c) as [r c'].
    destruct (replay pre c') as [rs c''] eqn:E.
    intros [= <- <-]. cbn [forallb]. intros Hm.
    apply andb_prop in Hm. destruct Hm as [Hr Hrs].
    destruct r as [[ | | [ | r0 regs]] | e]; cbn [moves_on last_TypeError] in *;
      try discriminate; try (apply IH; assumption).
    destruct e; try discriminate. apply IH; assumption.
Qed.

Lemma try_variants_exhausted d calls last (c : C) outs c' :
  replay calls c = (outs, c') ->
  forallb moves_on outs = true ->
  try_variants d calls last c =
  (Raise (RuntimeError ("read_holding_registers failed for device_id=" ++ repr_int d)
            (last_TypeError outs last)), c').
Proof.
  intros Hr Hm. rewrite <- (app_nil_r calls).
  rewrite (try_variants_app d calls [] last c outs c' Hr Hm). reflexivity.
Qed.

End ReaderFacts.

(** * The claims *)

Section ConversionClaims.

Context {C : Type} `{ModbusTcpClient C}.

(** C1. On a raw register value [v] in [0, 65535] the conversion returns
    [v] below 32768 and [v - 65536] from there on; [read_counts] applies
    it to every value [read_raw_u16] returns, in the order of the address
    table, and raises what [read_raw_u16] raises; and converting the
    register image of a count in [-32768, 32767] gives the count back. *)
Theorem read_counts_signed :
  (forall v, 0 <= v <= 65535 ->
     _u16_to_s16 v = if v <? 32768 then v else v - 65536) /\
  (forall s : SixAxisForceSensor C,
     read_counts s =
     match read_raw_u16 s with
     | (Ok raw, s') => (Ok (map toSigned raw), s')
     | (Raise e, s') => (Raise e, s')
     end) /\
  (forall c, -32768 <= c <= 32767 -> _u16_to_s16 (toUnsigned c) = c).
Proof.
  split; [ | split ].
  - intros v Hv. apply u16_to_s16_toSigned. exact Hv.
  - intros s. unfold read_counts. run.
    destruct (read_raw_u16 s) as [[raw | e] s'] eqn:E; [ | reflexivity ].
    apply read_raw_u16_Ok in E. destruct E as [_ Hall].
    rewrite map_u16_to_s16 by exact Hall. reflexivity.
  - intros c Hc. rewrite u16_to_s16_toSigned by (apply toUnsigned_range; exact Hc).
    apply toSigned_toUnsigned. exact Hc.
Qed.

End ConversionClaims.

(** The scenario of the description: registers 40000, 10000 and 0 read as
    the counts -25536, 10000 and 0. *)
Lemma read_counts_signed_scenario :
  fst (read_counts scenario_sensor) = Ok [-25536; 10000; 0].
Proof.
  rewrite (proj1 (proj2 read_counts_signed) scenario_sensor). reflexivity.
Defined.

Section ControllerClaims.

Context {C : Type} `{ModbusTcpClient C}.

Implicit Types c : Controller.SensorController C.

Lemma ensure_connected_true c c1 :
  Controller._ensure_connected c = (true, c1) -> Controller.connected c1 = true.
Proof.
  unfold Controller._ensure_connected.
  destruct (Controller.connected c) eqn:Ec.
  - intros [= <-]. exact Ec.
  - destruct (connect (Controller.sensor c)) as [[[ | ] | e] s]; cbn.
    + intros [= <-]. reflexivity.
    + discriminate.
    + discriminate.
Qed.

(** C2. [poll] returns on every outcome, with one [updated] signal.  When
    the connection cannot be ensured, or the biased read raises, whatever
    the exception, it leaves the controller disconnected with the error
    text recorded, and the signal carries the zero wrench, that text and
    [False]; when both succeed the signal carries the wrench read, the
    text "Modbus OK" and [True], and the controller stays connected. *)
Theorem poll_outcomes c :
  match Controller._ensure_connected c with
  | (false, c1) =>
      let message := or_str (Controller.last_error c1) "not connected" in
      Controller.poll c =
      ([updated zero_tuple message false],
       Controller.mkController (Controller.sensor c1) false message)
  | (true, c1) =>
      match get_force_torque false (Controller.sensor c1) with
      | (Ok ft, s) =>
          Controller.poll c =
          ([updated ft "Modbus OK" true], Controller.mkController s true "Modbus OK")
      | (Raise e, s) =>
          Controller.poll c =
          ([updated zero_tuple (str e) false], Controller.mkController s false (str e))
      end
  end.
Proof.
  unfold Controller.poll, Controller.poll_try.
  destruct (Controller._ensure_connected c) as [[ | ] c1] eqn:E; cbn [negb].
  - apply ensure_connected_true in E.
    destruct (get_force_torque false (Controller.sensor c1)) as [[ft | e] s];
      cbn; rewrite ?E; reflexivity.
  - reflexivity.
Qed.

(** C6, as the code has it.  [_ensure_connected] on a connected controller
    returns [True] and changes nothing, without a call to the engine.  On
    a disconnected one it calls [connect()]: [True] makes the controller
    connected and leaves [last_error] as it was; [False] leaves it
    disconnected with "connect() returned False" recorded; an exception
    leaves it disconnected with its text recorded; both failures return
    [False]. *)
Theorem ensure_connected_cases c :
  (Controller.connected c = true -> Controller._ensure_connected c = (true, c)) /\
  (Controller.connected c = false ->
   match connect (Controller.sensor c) with
   | (Ok true, s) =>
       Controller._ensure_connected c =
       (true, Controller.mkController s true (Controller.last_error c))
   | (Ok false, s) =>
       Controller._ensure_connected c =
       (false, Controller.mkController s false "connect() returned False")
   | (Raise e, s) =>
       Controller._ensure_connected c =
       (false, Controller.mkController s false (str e))
   end).
Proof.
  unfold Controller._ensure_connected. split; intros ->; [ reflexivity | ].
  destruct (connect (Controller.sensor c)) as [[[ | ] | e] s]; reflexivity.
Qed.

End ControllerClaims.

(** The fault collapse of the description: the first [poll] of the flaky
    link emits the forces read and [True]; the second emits the zero
    wrench, the text of the fault and [False], and leaves the controller
    disconnected. *)
Lemma poll_outcomes_fault_collapse :
  let '(first, c1) := Controller.poll flaky_controller in
  let '(second, c2) := Controller.poll c1 in
  first = [updated (as_tuple (scaled default_scale [100; 200; 300])) "Modbus OK" true] /\
  second = [updated zero_tuple "link down" false] /\
  Controller.connected c1 = true /\
  Controller.connected c2 = false /\
  Controller.last_error c2 = "link down".
Proof.
  pose proof (poll_outcomes flaky_controller) as P1.
  pose proof (poll_outcomes (snd (Controller.poll flaky_controller))) as P2.
  vm_compute in P1, P2. vm_compute. repeat split.
Defined.

(** C6 as stated fails: a refused connection leaves its text in
    [last_error], and the connection that succeeds next does not clear it. *)
Lemma ensure_connected_keeps_last_error :
  let c1 := snd (Controller.poll retry_controller) in
  Controller.connected c1 = false /\
  fst (Controller._ensure_connected c1) = true /\
  Controller.connected (snd (Controller._ensure_connected c1)) = true /\
  Controller.last_error (snd (Controller._ensure_connected c1)) = "connect() returned False" /\
  Controller.last_error (snd (Controller._ensure_connected c1)) <> "".
Proof.
  vm_compute. repeat split. discriminate.
Qed.

(** The three ways out of a disconnected controller, on the retry link. *)
Lemma ensure_connected_cases_retry :
  Controller._ensure_connected retry_controller =
  (false,
   Controller.mkController (snd (connect (Controller.sensor retry_controller)))
     false "connect() returned False").
Proof.
  exact (proj2 (ensure_connected_cases retry_controller) eq_refl).
Defined.

Section BiasClaims.

Context {C : Type} `{ModbusTcpClient C}.

Implicit Types s : SixAxisForceSensor C.

(** C3. For a positive sample count, [bias] is atomic with respect to
    the bias vector.  Whenever it raises, for a read that failed or for
    anything else, the bias vector is the one held before the call:
    nothing of the running sums is stored.  And a read of the loop that
    raises, the [k] reads before it having succeeded ([k] below the
    count) and the pauses between them gone through, makes [bias] raise
    that exception at that point. *)
Theorem bias_atomic samples delay_s s :
  0 < samples ->
  (forall e s', bias samples delay_s s = (Raise e, s') -> _bias s' = _bias s) /\
  (forall k ws sk e sk',
     (k < Z.to_nat samples)%nat ->
     k = 0%nat \/ delay_accepted delay_s = true ->
     unbiased_reads k s = (Ok ws, sk) ->
     get_wrench true sk = (Raise e, sk') ->
     bias samples delay_s s = (Raise e, sk') /\ _bias sk' = _bias s).
Proof.
  intros Hs. split.
  - intros e s' Hraise. apply bias_only_client_on_raise in Hraise.
    apply (only_client_fields s s'). exact Hraise.
  - intros k ws sk e sk' Hk Hpause Hreads Hfail.
    assert (Hkeep : _bias sk' = _bias s).
    { pose proof (unbiased_reads_only_client k s) as H1. rewrite Hreads in H1.
      pose proof (get_wrench_only_client true sk) as H2. rewrite Hfail in H2.
      cbn [snd] in H1, H2.
      apply (only_client_fields s sk'). eapply only_client_trans; eassumption. }
    split; [ | exact Hkeep ].
    destruct (delay_accepted delay_s) eqn:Hd.
    + rewrite bias_reads by assumption.
      rewrite (unbiased_reads_abort k _ s ws sk e sk' Hk Hreads Hfail). reflexivity.
    + destruct Hpause as [-> | Hacc]; [ | discriminate ].
      cbn [unbiased_reads] in Hreads. unfold ret in Hreads. injection Hreads as _ <-.
      rewrite bias_refused by assumption. rewrite Hfail. reflexivity.
Qed.

(** C4. The default delay, 0.0, makes no pause.  For a positive sample
    count, a delay whose pauses go through and unbiased reads that all
    succeed, [bias] makes exactly those reads, one after the other, stores
    the wrench of the means of their force components (torque at 0.0) as
    the bias vector and returns it; for a count of zero or less it raises
    [ValueError] and touches nothing. *)
Theorem bias_average samples delay_s s :
  delay_accepted Float.zero = true /\
  (0 < samples ->
   delay_accepted delay_s = true ->
   forall ws s', unbiased_reads (Z.to_nat samples) s = (Ok ws, s') ->
     List.length ws = Z.to_nat samples /\
     bias samples delay_s s = (Ok (mean_wrench ws), with_bias s' (mean_wrench ws))) /\
  (samples <= 0 ->
   bias samples delay_s s = (Raise (ValueError "samples must be > 0"), s)).
Proof.
  split; [ reflexivity | split ].
  - intros Hs Hd ws s' Hreads. split.
    + eapply unbiased_reads_length; eassumption.
    + rewrite bias_reads by assumption. rewrite Hreads. reflexivity.
  - apply bias_nonpositive.
Qed.

(** C7. After a [bias] over any positive number of samples and the
    [unbias] that follows it, the bias vector is the zero wrench, the
    client is as [bias] left it ([unbias] makes no call), and a biased
    read returns what an unbiased read returns from the same client state,
    and leaves the same state. *)
Theorem unbias_restores_unbiased_read samples delay_s s w s1 :
  0 < samples ->
  bias samples delay_s s = (Ok w, s1) ->
  fst (unbias s1) = Ok tt /\
  _bias (snd (unbias s1)) = zero_wrench /\
  _client (snd (unbias s1)) = _client s1 /\
  get_wrench false (snd (unbias s1)) = get_wrench true (snd (unbias s1)).
Proof.
  intros _ _. repeat split. apply get_wrench_zero_bias. reflexivity.
Qed.

End BiasClaims.

(** A bias held from one good read survives a [bias] of three samples
    whose second read fails. *)
Lemma bias_atomic_two_reads :
  let s1 := snd (bias 1 Float.zero two_reads_sensor) in
  _bias s1 = scaled default_scale [100; 200; 300] /\
  fst (bias 3 Float.zero s1) = Raise (OtherError "ModbusIOException" "link down") /\
  _bias (snd (bias 3 Float.zero s1)) = _bias s1.
Proof.
  cbv zeta. split; [ vm_compute; reflexivity | ].
  destruct (bias_atomic 3 Float.zero (snd (bias 1 Float.zero two_reads_sensor))
              ltac:(lia)) as [_ Hread].
  edestruct (Hread 1%nat) as [Hb Hk].
  - cbn; lia.
  - right. reflexivity.
  - vm_compute. reflexivity.
  - vm_compute. reflexivity.
  - rewrite Hb. split; [ reflexivity | exact Hk ].
Defined.

Section ReaderClaims.

Context {C : Type} `{ModbusTcpClient C}.

Implicit Types s : SixAxisForceSensor C.

(** C5. [_read_u16] tries its five conventions in the order of
    [call_variants].  When the attempts before one all move on (no
    response, no [registers], no register, or a [TypeError]) and that one
    answers with at least one register, the read returns that register's
    first value on 16 bits (the value itself for a 16-bit register) and
    makes no further call.  When all five move on, it raises one
    [RuntimeError] whose text ends with the device id, chained to the last
    [TypeError] seen. *)
Theorem read_u16_fallback device_id address s :
  (forall pre cl post outs c1 r regs c2,
     call_variants device_id address = (pre ++ cl :: post)%list ->
     replay pre (_client s) = (outs, c1) ->
     forallb moves_on outs = true ->
     read_holding_registers cl c1 = (Ok (RespRegisters (r :: regs)), c2) ->
     _read_u16 device_id address s = (Ok (Z.land r 0xFFFF), with_client s c2) /\
     (0 <= r <= 65535 -> Z.land r 0xFFFF = r)) /\
  (forall outs c',
     replay (call_variants device_id address) (_client s) = (outs, c') ->
     forallb moves_on outs = true ->
     _read_u16 device_id address s =
     (Raise (RuntimeError
               ("read_holding_registers failed for device_id=" ++ repr_int device_id)
               (last_TypeError outs None)),
      with_client s c')).
Proof.
  split.
  - intros pre cl post outs c1 r regs c2 Hcalls Hpre Hm Hcl.
    split; [ | apply mask_u16_id ].
    unfold _read_u16. rewrite Hcalls.
    rewrite (try_variants_app device_id pre (cl :: post) None _ outs c1 Hpre Hm).
    cbn [try_variants]. rewrite Hcl. reflexivity.
  - intros outs c' Hr Hm. unfold _read_u16.
    rewrite (try_variants_exhausted device_id _ None _ outs c' Hr Hm). reflexivity.
Qed.

(** C10. When the attempts before one all move on and that one raises
    anything but a [TypeError], [_read_u16] raises that very exception,
    not a [RuntimeError] around it, and the client is left as that call
    left it: the conventions after it are not tried. *)
Theorem read_u16_other_exception device_id address s pre cl post outs c1 e c2 :
  call_variants device_id address = (pre ++ cl :: post)%list ->
  replay pre (_client s) = (outs, c1) ->
  forallb moves_on outs = true ->
  read_holding_registers cl c1 = (Raise e, c2) ->
  is_TypeError e = false ->
  _read_u16 device_id address s = (Raise e, with_client s c2).
Proof.
  intros Hcalls Hpre Hm Hcl He.
  unfold _read_u16. rewrite Hcalls.
  rewrite (try_variants_app device_id pre (cl :: post) None _ outs c1 Hpre Hm).
  cbn [try_variants]. rewrite Hcl.
  destruct e; try reflexivity. discriminate.
Qed.

End ReaderClaims.

(** A client that knows [slave=] only: the first convention is refused,
    the second returns the register and no third call is made; a client
    that knows none of the five conventions gets five calls and one error
    naming device 7. *)
Lemma read_u16_fallback_slave_only :
  (fst (_read_u16 7 0 slave_only_sensor) = Ok 40000 /\
   List.length (calls_seen (_client (snd (_read_u16 7 0 slave_only_sensor)))) = 2%nat) /\
  (fst (_read_u16 7 0 no_convention_sensor) =
     Raise (RuntimeError "read_holding_registers failed for device_id=7"
              (Some (TypeError "unexpected keyword argument"))) /\
   List.length (calls_seen (_client (snd (_read_u16 7 0 no_convention_sensor)))) = 5%nat).
Proof.
  split.
  - edestruct (proj1 (read_u16_fallback 7 0 slave_only_sensor)
                 [mkCall [0; 1] [("unit", 7)]] (mkCall [0; 1] [("slave", 7)])) as [Hr _].
    + reflexivity.
    + vm_compute. reflexivity.
    + reflexivity.
    + vm_compute. reflexivity.
    + rewrite Hr. split; reflexivity.
  - assert (Hm : forallb moves_on
                   (fst (replay (call_variants 7 0) (_client no_convention_sensor))) = true)
      by (vm_compute; reflexivity).
    rewrite (proj2 (read_u16_fallback 7 0 no_convention_sensor)
               (fst (replay (call_variants 7 0) (_client no_convention_sensor)))
               (snd (replay (call_variants 7 0) (_client no_convention_sensor)))
               (surjective_pairing _) Hm).
    split; vm_compute; reflexivity.
Defined.

(** The link fails at the second convention, the first one the client
    accepts: the fault comes out as it is, after two calls. *)
Lemma read_u16_other_exception_link_down :
  fst (_read_u16 7 0 slave_only_down_sensor) =
    Raise (OtherError "ModbusIOException" "link down") /\
  List.length (calls_seen (_client (snd (_read_u16 7 0 slave_only_down_sensor)))) = 2%nat.
Proof.
  assert (Hm : forallb moves_on
                 (fst (replay [mkCall [0; 1] [("unit", 7)]] (_client slave_only_down_sensor)))
               = true) by (vm_compute; reflexivity).
  assert (Hcl : read_holding_registers (mkCall [0; 1] [("slave", 7)])
                  (snd (replay [mkCall [0; 1] [("unit", 7)]] (_client slave_only_down_sensor)))
                = (Raise (OtherError "ModbusIOException" "link down"),
                   snd (read_holding_registers (mkCall [0; 1] [("slave", 7)])
                          (snd (replay [mkCall [0; 1] [("unit", 7)]]
                                  (_client slave_only_down_sensor))))))
    by (vm_compute; reflexivity).
  rewrite (read_u16_other_exception 7 0 slave_only_down_sensor
             [mkCall [0; 1] [("unit", 7)]] (mkCall [0; 1] [("slave", 7)])
             (skipn 2 (call_variants 7 0)) _ _ _ _
             eq_refl (surjective_pairing _) Hm Hcl eq_refl).
  split; vm_compute; reflexivity.
Defined.

(** The averaging example of the description: one axis on the ramp
    device, unbiased forces 10.0, 20.0 and 30.0, and a bias of 20.0. *)
Lemma bias_average_ramp :
  exists ws s',
    unbiased_reads 3 ramp_sensor = (Ok ws, s') /\
    map fx ws = [Float.of_int 10; Float.of_int 20; Float.of_int 30] /\
    bias 3 Float.zero ramp_sensor =
      (Ok (mkWrench (Float.of_int 20) Float.zero Float.zero Float.zero Float.zero Float.zero),
       with_bias s'
         (mkWrench (Float.of_int 20) Float.zero Float.zero Float.zero Float.zero Float.zero)) /\
    fst (bias 0 Float.zero ramp_sensor) = Raise (ValueError "samples must be > 0").
Proof.
  pose (force := fun n => mkWrench (Float.of_int n)
                            Float.zero Float.zero Float.zero Float.zero Float.zero).
  exists [force 10; force 20; force 30], (with_client ramp_sensor (mkRamp 30)).
  assert (E : unbiased_reads (Z.to_nat 3) ramp_sensor =
              (Ok [force 10; force 20; force 30], with_client ramp_sensor (mkRamp 30)))
    by (vm_compute; reflexivity).
  destruct (bias_average 3 Float.zero ramp_sensor) as (Hzero & Hpos & _).
  destruct (Hpos ltac:(lia) Hzero _ _ E) as [_ Hb].
  destruct (bias_average 0 Float.zero ramp_sensor) as (_ & _ & Hneg).
  split; [ exact E | split; [ vm_compute; reflexivity | split ] ].
  - rewrite Hb. vm_compute. reflexivity.
  - rewrite (Hneg ltac:(lia)). reflexivity.
Defined.

(** After a tare on one read and its clearing, the next biased read of
    the registers 1, 2, 3 is their unbiased read. *)
Lemma unbias_restores_unbiased_read_two_reads :
  let s1 := snd (bias 1 Float.zero two_reads_sensor) in
  get_wrench false (snd (unbias s1)) = get_wrench true (snd (unbias s1)) /\
  fst (get_wrench false (snd (unbias s1))) = Ok (scaled default_scale [1; 2; 3]).
Proof.
  cbv zeta.
  destruct (unbias_restores_unbiased_read 1 Float.zero two_reads_sensor
              (_bias (snd (bias 1 Float.zero two_reads_sensor)))
              (snd (bias 1 Float.zero two_reads_sensor)))
    as (_ & _ & _ & Heq).
  - lia.
  - vm_compute. reflexivity.
  - split; [ exact Heq | vm_compute; reflexivity ].
Defined.

Section DegradedClaims.

Context {C : Type} `{ModbusTcpClient C}.

Implicit Types s : SixAxisForceSensor C.

(** C8, as the code has it.  On an engine whose scale factor has been a
    finite number since its construction, a read, biased or not, succeeds
    whenever the register reads do, and every force channel beyond the
    configured axes is exactly 0.0 in the wrench it returns; a read fails
    only as the register reads fail. *)
Theorem degraded_channels_zero s unbiased :
  reachable_finite s ->
  match read_raw_u16 s with
  | (Ok raw, s') =>
      exists w, get_wrench unbiased s = (Ok w, s') /\ missing_channels_zero (n_axes s) w
  | (Raise e, s') => get_wrench unbiased s = (Raise e, s')
  end.
Proof.
  intros Hreach. apply reachable_finite_invariant in Hreach.
  pose proof (get_wrench_missing unbiased s) as Hm.
  rewrite get_wrench_eq in *.
  destruct (read_raw_u16 s) as [[raw | e] s']; [ | reflexivity ].
  eexists. split; [ reflexivity | ]. eapply Hm; [ exact Hreach | reflexivity ].
Qed.

End DegradedClaims.

(** One axis on the ramp device at one newton per count: the first read
    gives 10.0 on Fx and exactly 0.0 on Fy and Fz. *)
Lemma degraded_channels_zero_ramp :
  reachable_finite ramp_sensor /\
  exists w, fst (get_wrench false ramp_sensor) = Ok w /\
            fx w = Float.of_int 10 /\ fy w = Float.zero /\ fz w = Float.zero.
Proof.
  assert (Hreach : reachable_finite ramp_sensor).
  { eapply (reachable_finite_init (C := RampClient)
              "10.10.10.2" (AddrInt 0) [1] 502 None (Some (Float.of_int 1))
              DEFAULT_FORCE_RANGE_N DEFAULT_COUNTS_FULL_SCALE); reflexivity. }
  split; [ exact Hreach | ].
  pose proof (degraded_channels_zero ramp_sensor false Hreach) as Hd.
  change (read_raw_u16 ramp_sensor) with ((Ok [10], with_client ramp_sensor (mkRamp 10))) in Hd.
  destruct Hd as (w & Hw & _ & Hy & Hz).
  exists w. rewrite Hw. cbn [fst]. split; [ reflexivity | ].
  split; [ | split; [ apply Hy | apply Hz ]; cbn; lia ].
  vm_compute in Hw. injection Hw as <-. reflexivity.
Defined.

(** C8 as stated fails: plus infinity passes the constructor's check of
    the scale factor, and the missing channels of a one-axis engine then
    read NaN, not 0.0. *)
Lemma degraded_channels_nan_at_infinite_scale :
  exists s,
    ramp_init Float.infinity = Ok s /\
    n_axes s = 1%nat /\
    exists w s', get_wrench true s = (Ok w, s') /\
                 fy w = Float.nan /\ fz w = Float.nan /\
                 ~ missing_channels_zero (n_axes s) w.
Proof.
  eexists. split; [ reflexivity | ]. split; [ reflexivity | ].
  eexists. eexists. split; [ vm_compute; reflexivity | ].
  split; [ reflexivity | split; [ reflexivity | ] ].
  intros (_ & Hy & _). specialize (Hy (le_n 1)). discriminate Hy.
Qed.

(** C9 fails on the code: NaN is not [<= 0], so the constructor and the
    setter both let it through as a scale factor, although it is not
    above zero; the forces read with it are NaN. *)
Theorem scale_nan_accepted :
  exists s,
    ramp_init Float.nan = Ok s /\
    reachable s /\
    _n_per_count s = Float.nan /\
    Float.ltb Float.zero (_n_per_count s) = false /\
    set_n_per_count Float.nan ramp_sensor = (Ok tt, with_n_per_count ramp_sensor Float.nan) /\
    fst (get_wrench true s) =
      Ok (mkWrench Float.nan Float.nan Float.nan Float.zero Float.zero Float.zero).
Proof.
  eexists. split; [ reflexivity | ].
  split.
  { eapply (reachable_init (C := RampClient)
              "10.10.10.2" (AddrInt 0) [1] 502 None (Some Float.nan)
              DEFAULT_FORCE_RANGE_N DEFAULT_COUNTS_FULL_SCALE). reflexivity. }
  repeat split.
Qed.

(** * Further properties of the engine *)

(** X1. The conversion accepts any integer: its result is a signed
    16-bit value, it differs from the argument by a multiple of 65536,
    and it depends on the low 16 bits of the argument alone. *)
Theorem u16_to_s16_any_int (v : Z) :
  -32768 <= _u16_to_s16 v <= 32767 /\
  (exists k, _u16_to_s16 v = v + 65536 * k) /\
  _u16_to_s16 v = _u16_to_s16 (Z.land v 0xFFFF).
Proof.
  pose proof (mask_u16_range v) as Hm.
  assert (Hsame : _u16_to_s16 v = _u16_to_s16 (Z.land v 0xFFFF)).
  { unfold _u16_to_s16. cbv zeta. rewrite (mask_u16_id (Z.land v 0xFFFF)) by exact Hm.
    reflexivity. }
  assert (Hmod : Z.land v 0xFFFF = v mod 65536).
  { change (Z.land v 0xFFFF) with (Z.land v (Z.ones 16)). apply Z.land_ones. lia. }
  pose proof (Z.div_mod v 65536 ltac:(lia)) as Hdm.
  rewrite Hsame, (u16_to_s16_toSigned _ Hm). unfold toSigned.
  destruct (Z.ltb_spec (Z.land v 0xFFFF) 32768) as [Hlt | Hge].
  - split; [ lia | split; [ exists (- (v / 65536)); lia | reflexivity ] ].
  - split; [ lia | split; [ exists (- (v / 65536) - 1); lia | reflexivity ] ].
Qed.

Section EngineExtras.

Context {C : Type} `{ModbusTcpClient C}.

Implicit Types s : SixAxisForceSensor C.

Lemma toSigned_range (v : Z) : 0 <= v <= 65535 -> -32768 <= toSigned v <= 32767.
Proof. unfold toSigned. destruct (Z.ltb_spec v 32768); lia. Qed.

(** X2. Whatever the transport answers, a [read_counts] that returns
    hands back one count per pair of the address table, each a signed
    16-bit value. *)
Theorem read_counts_int16 s counts s' :
  read_counts s = (Ok counts, s') ->
  List.length counts = n_axes s /\
  Forall (fun c => -32768 <= c <= 32767) counts.
Proof.
  unfold read_counts. run.
  destruct (read_raw_u16 s) as [[raw | e] s1] eqn:E; [ | discriminate ].
  intros [= <- _]. apply read_raw_u16_Ok in E. destruct E as [Hlen Hall].
  rewrite length_map. split; [ exact Hlen | ].
  rewrite map_u16_to_s16 by exact Hall.
  apply Forall_map. eapply Forall_impl; [ | exact Hall ].
  intros v Hv. apply toSigned_range. exact Hv.
Qed.

Lemma init_fields ip address ids port timeout npc range full s :
  __init__ ip address ids port timeout npc range full = Ok s ->
  axis_device_ids s = ids /\
  List.length (addresses s) = List.length ids /\
  addresses s = match address with
                | AddrInt a => repeat a (List.length ids)
                | AddrSeq l => l
                end /\
  _bias s = zero_wrench /\
  _n_per_count s = match npc with
                   | Some v => v
                   | None => Float.div range full
                   end.
Proof.
  unfold __init__, rbind.
  assert (Hrep : forall (a : Z) (l : list Z), map (fun _ : Z => a) l = repeat a (List.length l)).
  { intros a l. induction l as [ | x l IH ]; cbn; [ reflexivity | rewrite IH; reflexivity ]. }
  destruct npc as [v | ].
  - destruct (Float.leb v Float.zero); [ discriminate | ].
    destruct address as [a | l].
    + destruct (_create_client ip port timeout) as [c | e]; [ | discriminate ].
      intros [= <-]. cbn. rewrite length_map, Hrep. repeat split.
    + destruct (Nat.eqb_spec (List.length l) (List.length ids)) as [Hl | Hl];
        [ | discriminate ].
      destruct (_create_client ip port timeout) as [c | e]; [ | discriminate ].
      intros [= <-]. cbn. repeat split. exact Hl.
  - unfold truediv. destruct (Float.is_zero full); [ discriminate | ].
    destruct (Float.leb (Float.div range full) Float.zero); [ discriminate | ].
    destruct address as [a | l].
    + destruct (_create_client ip port timeout) as [c | e]; [ | discriminate ].
      intros [= <-]. cbn. rewrite length_map, Hrep. repeat split.
    + destruct (Nat.eqb_spec (List.length l) (List.length ids)) as [Hl | Hl];
        [ | discriminate ].
      destruct (_create_client ip port timeout) as [c | e]; [ | discriminate ].
      intros [= <-]. cbn. repeat split. exact Hl.
Qed.

(** X3. What the constructor builds when it returns: the device ids as
    given; one address per device id, the single address repeated or the
    sequence as given; a zero bias vector; and as scale factor the
    override, or without one the quotient of range and full scale. *)
Theorem init_builds ip address ids port timeout npc range full s :
  __init__ ip address ids port timeout npc range full = Ok s ->
  axis_device_ids s = ids /\
  List.length (addresses s) = List.length ids /\
  addresses s = match address with
                | AddrInt a => repeat a (List.length ids)
                | AddrSeq l => l
                end /\
  _bias s = zero_wrench /\
  _n_per_count s = match npc with
                   | Some v => v
                   | None => Float.div range full
                   end.
Proof. apply init_fields. Qed.

(** X4. How the constructor fails, in the order of its checks.  Without
    an override, a full scale of zero is a [ZeroDivisionError], not the
    [ValueError] of the scale check.  A scale factor, given or derived,
    that is zero or below is the [ValueError] of the scale check, whatever
    the addresses.  Past that check, an address sequence of another
    length than the device ids is the [ValueError] of the address check,
    before any client is built. *)
Theorem init_failures ip address ids port timeout npc range full :
  (npc = None -> Float.is_zero full = true ->
   __init__ ip address ids port timeout npc range full
   = (Raise (ZeroDivisionError "float division by zero") : result (SixAxisForceSensor C))) /\
  (forall v,
     (npc = Some v \/ (npc = None /\ truediv range full = Ok v)) ->
     Float.leb v Float.zero = true ->
     __init__ ip address ids port timeout npc range full
     = (Raise (ValueError "n_per_count must be > 0") : result (SixAxisForceSensor C))) /\
  (forall v l,
     (npc = Some v \/ (npc = None /\ truediv range full = Ok v)) ->
     Float.leb v Float.zero = false ->
     address = AddrSeq l -> List.length l <> List.length ids ->
     __init__ ip address ids port timeout npc range full
     = (Raise (ValueError "address sequence length must match axis_device_ids length")
        : result (SixAxisForceSensor C))).
Proof.
  unfold __init__, rbind. split; [ | split ].
  - intros -> Hz. unfold truediv. rewrite Hz. reflexivity.
  - intros v [-> | [-> ->]] Hv; rewrite Hv; reflexivity.
  - intros v l Hnpc Hv -> Hl.
    destruct (Nat.eqb_spec (List.length l) (List.length ids)) as [Heq | _]; [ contradiction | ].
    destruct Hnpc as [-> | [-> ->]]; rewrite Hv; reflexivity.
Qed.

(** The setter, a refusal apart, changes the scale factor alone. *)
Lemma set_n_per_count_state value s :
  snd (set_n_per_count value s) = s \/
  snd (set_n_per_count value s) = with_n_per_count s value.
Proof.
  unfold set_n_per_count. destruct (Float.leb value Float.zero); [ left | right ]; reflexivity.
Qed.

(** What a call of [bias] leaves: the client apart, the engine as it was
    or with a new bias vector that is a wrench of means. *)
Lemma bias_state samples delay_s s :
  exists s1, only_client s s1 /\
    (snd (bias samples delay_s s) = s1 \/
     exists ws, snd (bias samples delay_s s) = with_bias s1 (mean_wrench ws)).
Proof.
  destruct (bias samples delay_s s) as [[w | e] s'] eqn:E; cbn [snd].
  - apply bias_Ok_inv in E. destruct E as (_ & _ & ws & s1 & Er & _ & ->).
    pose proof (unbiased_reads_only_client (Z.to_nat samples) s) as Ho.
    rewrite Er in Ho. cbn [snd] in Ho.
    exists s1. split; [ exact Ho | right; exists ws; reflexivity ].
  - apply bias_only_client_on_raise in E.
    exists s'. split; [ exact E | left; reflexivity ].
Qed.

(** The address table and the torque of the bias vector under one call of
    a public method. *)
Lemma state_after_table m s :
  axis_device_ids (state_after m s) = axis_device_ids s /\
  addresses (state_after m s) = addresses s /\
  ((tx (_bias s) = Float.zero /\ ty (_bias s) = Float.zero /\ tz (_bias s) = Float.zero) ->
   tx (_bias (state_after m s)) = Float.zero /\
   ty (_bias (state_after m s)) = Float.zero /\
   tz (_bias (state_after m s)) = Float.zero).
Proof.
  assert (Hframe : forall s', only_client s s' ->
            axis_device_ids s' = axis_device_ids s /\ addresses s' = addresses s /\
            ((tx (_bias s) = Float.zero /\ ty (_bias s) = Float.zero /\ tz (_bias s) = Float.zero) ->
             tx (_bias s') = Float.zero /\ ty (_bias s') = Float.zero /\ tz (_bias s') = Float.zero)).
  { intros s' ->. cbn. auto. }
  destruct m as [ v | | | | | u | n d | ]; cbn [state_after].
  - destruct (set_n_per_count_state v s) as [-> | ->]; cbn; auto.
  - apply Hframe. unfold connect. destruct (client_connect (_client s)). reflexivity.
  - apply Hframe. unfold close. destruct (client_close (_client s)). reflexivity.
  - apply Hframe, read_raw_u16_only_client.
  - apply Hframe, read_counts_only_client.
  - apply Hframe, get_wrench_only_client.
  - destruct (bias_state n d s) as (s1 & Ho & [-> | (ws & ->)]).
    + apply Hframe. exact Ho.
    + destruct (Hframe s1 Ho) as (Hi & Ha & _). cbn. auto.
  - cbn. auto.
Qed.

Lemma reachable_table_and_torque s :
  reachable s ->
  List.length (addresses s) = List.length (axis_device_ids s) /\
  tx (_bias s) = Float.zero /\ ty (_bias s) = Float.zero /\ tz (_bias s) = Float.zero.
Proof.
  induction 1 as [ ip address ids port timeout npc range full s Hinit | s m _ IH ].
  - apply init_fields in Hinit. destruct Hinit as (-> & Hlen & _ & -> & _).
    split; [ exact Hlen | repeat split ].
  - destruct IH as (Hlen & Ht).
    destruct (state_after_table m s) as (-> & -> & Hkeep).
    split; [ exact Hlen | apply Hkeep; exact Ht ].
Qed.

(** X5. The address table of an engine is fixed for its lifetime: no
    public method changes the device ids or the addresses, and on every
    engine built by the constructor and driven through its methods there
    is one address per device id, so that every device id is an axis. *)
Theorem address_table_fixed s m :
  reachable s ->
  axis_device_ids (state_after m s) = axis_device_ids s /\
  addresses (state_after m s) = addresses s /\
  List.length (addresses s) = List.length (axis_device_ids s) /\
  n_axes s = List.length (axis_device_ids s).
Proof.
  intros Hr. destruct (state_after_table m s) as (Hi & Ha & _).
  destruct (reachable_table_and_torque s Hr) as (Hlen & _).
  repeat split; try assumption.
  unfold n_axes. rewrite length_combine. lia.
Qed.

Lemma get_force_torque_eq unbiased s :
  get_force_torque unbiased s =
  match get_wrench unbiased s with
  | (Ok w, s') => (Ok (as_tuple w), s')
  | (Raise e, s') => (Raise e, s')
  end.
Proof.
  unfold get_force_torque. run. destruct (get_wrench unbiased s) as [[w | e] s']; reflexivity.
Qed.

(** X6. The torque channels are dead: on every engine built by the
    constructor and driven through its methods, the last three entries of
    a tuple returned by [get_force_torque], biased or not, are exactly
    0.0. *)
Theorem torque_always_zero s unbiased f1 f2 f3 t1 t2 t3 s' :
  reachable s ->
  get_force_torque unbiased s = (Ok (f1, f2, f3, t1, t2, t3), s') ->
  t1 = Float.zero /\ t2 = Float.zero /\ t3 = Float.zero.
Proof.
  intros Hr. destruct (reachable_table_and_torque s Hr) as (_ & Hx & Hy & Hz).
  rewrite get_force_torque_eq, get_wrench_eq.
  destruct (read_raw_u16 s) as [[raw | e] s1]; [ | discriminate ].
  cbv zeta. destruct unbiased; unfold as_tuple, minus, scaled; cbn [fx fy fz tx ty tz];
    intros [= _ _ _ <- <- <- _]; rewrite ?Hx, ?Hy, ?Hz; repeat split.
Qed.

(** The loop of [read_raw_u16], cut at an axis that fails. *)
Lemma read_axes_stops pre : forall d a post values s vs s1 e s2,
  read_axes pre values s = (Ok vs, s1) ->
  _read_u16 d a s1 = (Raise e, s2) ->
  read_axes (pre ++ (d, a) :: post)%list values s = (Raise e, s2).
Proof.
  induction pre as [ | [d0 a0] pre IH ]; intros d a post values s vs s1 e s2;
    cbn [read_axes app]; run.
  - intros [= _ <-] Hfail. rewrite Hfail. reflexivity.
  - destruct (_read_u16 d0 a0 s) as [[v | e0] s0]; [ | discriminate ].
    intros Hpre Hfail. eapply IH; eassumption.
Qed.

(** X7. [read_raw_u16] is all or nothing and stops at the first axis
    that fails: when the axes before one have been read and that one's
    read raises, the call raises that exception, returns none of the
    values read, and leaves the client as the failed read left it, the
    axes after it unread. *)
Theorem read_raw_u16_stops_at_failure s pre d a post vs s1 e s2 :
  combine (axis_device_ids s) (addresses s) = (pre ++ (d, a) :: post)%list ->
  read_axes pre [] s = (Ok vs, s1) ->
  _read_u16 d a s1 = (Raise e, s2) ->
  read_raw_u16 s = (Raise e, s2) /\
  read_counts s = (Raise e, s2) /\
  forall unbiased, get_wrench unbiased s = (Raise e, s2).
Proof.
  intros Htable Hpre Hfail.
  assert (Hraw : read_raw_u16 s = (Raise e, s2)).
  { unfold read_raw_u16. rewrite Htable. eapply read_axes_stops; eassumption. }
  split; [ exact Hraw | ]. split.
  - unfold read_counts. run. rewrite Hraw. reflexivity.
  - intros unbiased. rewrite get_wrench_eq, Hraw. reflexivity.
Qed.

End EngineExtras.

(** * Further properties of the controller *)

Section ControllerExtras.

Context {C : Type} `{ModbusTcpClient C}.

Implicit Types c : Controller.SensorController C.

Lemma connect_only_client (s : SixAxisForceSensor C) : only_client s (snd (connect s)).
Proof. unfold connect. destruct (client_connect (_client s)). reflexivity. Qed.

Lemma ensure_connected_only_client c :
  only_client (Controller.sensor c) (Controller.sensor (snd (Controller._ensure_connected c))).
Proof.
  unfold Controller._ensure_connected.
  destruct (Controller.connected c); [ apply only_client_refl | ].
  pose proof (connect_only_client (Controller.sensor c)) as Ho.
  destruct (connect (Controller.sensor c)) as [[[ | ] | e] s]; exact Ho.
Qed.

Lemma bias_returns_stored samples delay_s (s : SixAxisForceSensor C) w s' :
  bias samples delay_s s = (Ok w, s') -> _bias s' = w.
Proof.
  intros E. apply bias_Ok_inv in E. destruct E as (_ & _ & ws & s1 & _ & -> & ->).
  reflexivity.
Qed.

(** X8. [tare] returns on every outcome.  When the connection cannot be
    ensured it emits nothing and leaves the controller disconnected with
    the error text.  When [bias] raises, whatever the exception, it emits
    nothing, leaves the controller disconnected with that text, and the
    bias vector is the one held before.  When [bias] returns it emits
    one [bias_updated] signal with the new bias vector, now stored in the
    engine, and the controller stays connected, [last_error] untouched. *)
Theorem tare_outcomes samples c :
  match Controller._ensure_connected c with
  | (false, c1) =>
      Controller.tare samples c =
      ([], Controller.mkController (Controller.sensor c1) false
             (or_str (Controller.last_error c1) "not connected"))
  | (true, c1) =>
      match bias samples Float.zero (Controller.sensor c1) with
      | (Ok w, s) =>
          Controller.tare samples c =
          ([bias_updated (as_tuple w)],
           Controller.mkController s true (Controller.last_error c1)) /\
          _bias s = w
      | (Raise e, s) =>
          Controller.tare samples c = ([], Controller.mkController s false (str e)) /\
          _bias s = _bias (Controller.sensor c)
      end
  end.
Proof.
  unfold Controller.tare, Controller.tare_try.
  pose proof (ensure_connected_only_client c) as Ho.
  destruct (Controller._ensure_connected c) as [[ | ] c1] eqn:E; cbn [negb snd] in *.
  - apply ensure_connected_true in E.
    destruct (bias samples Float.zero (Controller.sensor c1)) as [[w | e] s] eqn:Eb;
      cbn; rewrite ?E; (split; [ reflexivity | ]).
    + eapply bias_returns_stored; eassumption.
    + apply bias_only_client_on_raise in Eb.
      apply (only_client_fields (Controller.sensor c) s).
      eapply only_client_trans; eassumption.
  - reflexivity.
Qed.

(** X9. A sample count of zero or less disconnects: on a controller
    whose connection can be ensured, [tare] with such a count emits
    nothing, makes no register read, and leaves the controller
    disconnected with the text of the [ValueError], the link itself being
    sound. *)
Theorem tare_nonpositive_disconnects samples c :
  samples <= 0 ->
  fst (Controller._ensure_connected c) = true ->
  Controller.tare samples c =
  ([], Controller.mkController
         (Controller.sensor (snd (Controller._ensure_connected c)))
         false "samples must be > 0").
Proof.
  intros Hs Hc. unfold Controller.tare, Controller.tare_try.
  destruct (Controller._ensure_connected c) as [ok c1]. cbn [fst snd] in *. subst ok.
  cbn [negb]. rewrite bias_nonpositive by exact Hs. reflexivity.
Qed.

(** X10. [clear] always returns: it emits the zero bias tuple, sets the
    bias vector to zero, and leaves the client, the connection flag and
    [last_error] alone; the next biased read of its engine is then the
    unbiased one. *)
Theorem clear_resets_bias c :
  Controller.clear c =
  (Ok [bias_updated zero_tuple],
   Controller.mkController (with_bias (Controller.sensor c) zero_wrench)
     (Controller.connected c) (Controller.last_error c)) /\
  get_wrench false (Controller.sensor (snd (Controller.clear c))) =
  get_wrench true (Controller.sensor (snd (Controller.clear c))).
Proof.
  split; [ reflexivity | ]. apply get_wrench_zero_bias. reflexivity.
Qed.

(** X11. [poll] never changes the engine's settings: after it, whatever
    its outcome, the scale factor, the address table and the bias vector
    are those held before; the client alone may have moved. *)
Theorem poll_keeps_settings c :
  only_client (Controller.sensor c) (Controller.sensor (snd (Controller.poll c))).
Proof.
  unfold Controller.poll, Controller.poll_try.
  pose proof (ensure_connected_only_client c) as Ho.
  destruct (Controller._ensure_connected c) as [[ | ] c1]; cbn [negb snd] in *;
    [ | exact Ho ].
  rewrite get_force_torque_eq.
  pose proof (get_wrench_only_client false (Controller.sensor c1)) as Hw.
  destruct (get_wrench false (Controller.sensor c1)) as [[w | e] s]; cbn [snd] in *;
    eapply only_client_trans; eassumption.
Qed.

(** X12. Ensuring the connection twice is ensuring it once: after a
    call that returned [True], the next call returns [True] and changes
    nothing, the engine's [connect()] not being called again. *)
Theorem ensure_connected_twice c :
  fst (Controller._ensure_connected c) = true ->
  Controller._ensure_connected (snd (Controller._ensure_connected c)) =
  (true, snd (Controller._ensure_connected c)).
Proof.
  intros Hc. destruct (Controller._ensure_connected c) as [ok c1] eqn:E.
  cbn [fst snd] in *. subst ok. apply ensure_connected_true in E.
  unfold Controller._ensure_connected. rewrite E. reflexivity.
Qed.

(** How [_build_sensor] comes out: the scale factor is always passed as
    an override, the quotient of the configuration's range and full
    scale, and the address as a single int. *)
Lemma build_sensor_cases (cfg : Config.AppConfig) :
  (Float.is_zero (Config.counts_full_scale cfg) = true ->
   _build_sensor cfg
   = (Raise (ZeroDivisionError "float division by zero") : result (SixAxisForceSensor C))) /\
  (Float.is_zero (Config.counts_full_scale cfg) = false ->
   _build_sensor cfg =
   if Float.leb (Float.div (Config.force_range_n cfg) (Config.counts_full_scale cfg)) Float.zero
   then Raise (ValueError "n_per_count must be > 0")
   else
     match _create_client (Config.sensor_ip cfg) (Config.sensor_port cfg)
             (Some (Config.timeout_s cfg)) with
     | Ok client =>
         Ok (mkSensor (Config.sensor_ip cfg) (Config.sensor_port cfg)
               (Some (Config.timeout_s cfg))
               (Float.div (Config.force_range_n cfg) (Config.counts_full_scale cfg))
               (Config.axis_device_ids cfg)
               (map (fun _ => Config.address cfg) (Config.axis_device_ids cfg))
               client zero_wrench)
     | Raise e => Raise e
     end).
Proof.
  unfold _build_sensor, Config.n_per_count, truediv, rbind, __init__.
  split; intros ->; [ reflexivity | ]. cbn [rbind].
  destruct (Float.leb _ Float.zero); [ reflexivity | ].
  destruct (_create_client _ _ _); reflexivity.
Qed.

(** X13. What [_build_sensor] does with a configuration.  A full scale
    of zero is a [ZeroDivisionError]; a quotient of range and full scale
    that is zero or below is the [ValueError] of the engine's scale check;
    otherwise the engine is the one the client can be created for, with
    that quotient as scale factor, the configuration's single address
    under every device id, and a zero bias.  The address-length error of
    the engine cannot occur. *)
Theorem build_sensor_outcomes (cfg : Config.AppConfig) :
  (Float.is_zero (Config.counts_full_scale cfg) = true ->
   _build_sensor cfg
   = (Raise (ZeroDivisionError "float division by zero") : result (SixAxisForceSensor C))) /\
  (Float.is_zero (Config.counts_full_scale cfg) = false ->
   _build_sensor cfg =
   if Float.leb (Float.div (Config.force_range_n cfg) (Config.counts_full_scale cfg)) Float.zero
   then Raise (ValueError "n_per_count must be > 0")
   else
     match _create_client (Config.sensor_ip cfg) (Config.sensor_port cfg)
             (Some (Config.timeout_s cfg)) with
     | Ok client =>
         Ok (mkSensor (Config.sensor_ip cfg) (Config.sensor_port cfg)
               (Some (Config.timeout_s cfg))
               (Float.div (Config.force_range_n cfg) (Config.counts_full_scale cfg))
               (Config.axis_device_ids cfg)
               (map (fun _ => Config.address cfg) (Config.axis_device_ids cfg))
               client zero_wrench)
     | Raise e => Raise e
     end).
Proof. apply build_sensor_cases. Qed.

(** X14. A [reconfigure] whose new engine can be built returns, and
    isolates the controller from its past: whatever the state before, the
    controller holds the new configuration and the new engine, is
    disconnected with an empty [last_error], and the engine's bias vector
    is zero. *)
Theorem reconfigure_isolation new_cfg (cc : ConfiguredController C) s :
  _build_sensor new_cfg = Ok s ->
  reconfigure new_cfg cc =
  (Ok tt, mkConfigured new_cfg (Controller.mkController s false "")) /\
  _bias s = zero_wrench /\
  axis_device_ids s = Config.axis_device_ids new_cfg /\
  n_axes s = List.length (Config.axis_device_ids new_cfg).
Proof.
  intros Hb. unfold reconfigure.
  destruct (close (Controller.sensor (controller cc))) as [r closed].
  rewrite Hb. split; [ reflexivity | ].
  destruct (build_sensor_cases new_cfg) as [Hz Hnz].
  destruct (Float.is_zero (Config.counts_full_scale new_cfg)).
  - rewrite (Hz eq_refl) in Hb. discriminate.
  - rewrite (Hnz eq_refl) in Hb.
    destruct (Float.leb _ Float.zero); [ discriminate | ].
    destruct (_create_client _ _ _) as [client | e]; [ | discriminate ].
    injection Hb as <-. unfold n_axes. cbn.
    rewrite length_combine, length_map. repeat split. lia.
Qed.

(** X15. A [reconfigure] whose new engine cannot be built raises, the
    exception of the constructor escaping the controller.  By then the
    old engine has been closed and the new configuration stored, but the
    engine, the connection flag and [last_error] are the old ones: a
    controller that was connected still says so, over a closed engine. *)
Theorem reconfigure_failure new_cfg (cc : ConfiguredController C) e :
  _build_sensor new_cfg = (Raise e : result (SixAxisForceSensor C)) ->
  fst (reconfigure new_cfg cc) = Raise e /\
  cfg (snd (reconfigure new_cfg cc)) = new_cfg /\
  Controller.sensor (controller (snd (reconfigure new_cfg cc))) =
    snd (close (Controller.sensor (controller cc))) /\
  Controller.connected (controller (snd (reconfigure new_cfg cc))) =
    Controller.connected (controller cc) /\
  Controller.last_error (controller (snd (reconfigure new_cfg cc))) =
    Controller.last_error (controller cc).
Proof.
  intros Hb. unfold reconfigure.
  destruct (close (Controller.sensor (controller cc))) as [r closed].
  rewrite Hb. repeat split.
Qed.

End ControllerExtras.

(** * Further properties of the configuration *)

Lemma poll_hz_cases (cfg : Config.AppConfig) :
  (Config.interval_overflows cfg = true ->
   Config.poll_hz cfg = Raise (OtherError "OverflowError" "int too large to convert to float")) /\
  (Config.interval_overflows cfg = false -> exists hz, Config.poll_hz cfg = Ok hz).
Proof.
  unfold Config.interval_overflows, Config.poll_hz, float_of_int.
  destruct (Z.ltb_spec 0 (Config.poll_interval_ms cfg)) as [Hp | Hp]; cbn [andb].
  - pose proof (of_int_positive _ Hp) as Hpos.
    destruct (Float.of_int (Config.poll_interval_ms cfg)) as [ sg | sg | | sg m e ];
      cbn in Hpos; try discriminate; (split; [ intros Ho | intros Ho ]);
      try discriminate; cbn [rbind]; [ reflexivity | eexists; reflexivity ].
  - split; [ discriminate | eauto ].
Qed.

(** X16. The two dictionaries.  With an interval above zero that is
    beyond the binary64 range, [float(poll_interval_ms)] makes both raise
    [OverflowError].  Otherwise [to_public_dict] returns its six keys, its
    one division being guarded by [poll_interval_ms > 0], and
    [to_file_dict] returns its eleven keys exactly when the full scale is
    not zero, raising [ZeroDivisionError] when it is. *)
Theorem dicts_outcomes (cfg : Config.AppConfig) :
  (Config.interval_overflows cfg = true ->
   Config.to_public_dict cfg =
     Raise (OtherError "OverflowError" "int too large to convert to float") /\
   Config.to_file_dict cfg =
     Raise (OtherError "OverflowError" "int too large to convert to float")) /\
  (Config.interval_overflows cfg = false ->
   (exists d, Config.to_public_dict cfg = Ok d /\
              map fst d = [ "sensor_ip"; "sensor_port"; "axis_device_ids";
                            "force_range_n"; "poll_hz"; "language" ]) /\
   (Float.is_zero (Config.counts_full_scale cfg) = true ->
    Config.to_file_dict cfg = Raise (ZeroDivisionError "float division by zero")) /\
   (Float.is_zero (Config.counts_full_scale cfg) = false ->
    exists d, Config.to_file_dict cfg = Ok d /\
              map fst d = [ "sensor_ip"; "sensor_port"; "address"; "axis_device_ids";
                            "timeout_s"; "force_range_n"; "counts_full_scale";
                            "poll_interval_ms"; "poll_hz"; "language"; "n_per_count" ])).
Proof.
  destruct (poll_hz_cases cfg) as [Hover Hfine].
  unfold Config.to_public_dict, Config.to_file_dict, Config.n_per_count, truediv.
  split.
  - intros Ho. rewrite (Hover Ho). split; reflexivity.
  - intros Ho. destruct (Hfine Ho) as [hz ->]. cbn [rbind]. split; [ | split ].
    + eexists. split; reflexivity.
    + intros ->. reflexivity.
    + intros ->. eexists. split; reflexivity.
Qed.

(** X17. [apply_updates] never returns a configuration.  It starts from
    [to_file_dict]: an interval beyond the binary64 range is its
    [OverflowError], a full scale of zero its [ZeroDivisionError].  Past
    that, the dictionary the dataclass is rebuilt from is that of
    [to_file_dict] less [n_per_count], which still holds [poll_hz], no
    field of the dataclass, and the call raises the [TypeError] of the
    dataclass for that keyword, whatever the updates. *)
Theorem apply_updates_always_raises (cfg : Config.AppConfig) (updates : Config.Updates) :
  (Config.interval_overflows cfg = true ->
   Config.apply_updates cfg updates =
   Raise (OtherError "OverflowError" "int too large to convert to float")) /\
  (Config.interval_overflows cfg = false ->
   Float.is_zero (Config.counts_full_scale cfg) = true ->
   Config.apply_updates cfg updates =
   Raise (ZeroDivisionError "float division by zero")) /\
  (Config.interval_overflows cfg = false ->
   Float.is_zero (Config.counts_full_scale cfg) = false ->
   Config.apply_updates cfg updates =
   Raise (TypeError "AppConfig.__init__() got an unexpected keyword argument 'poll_hz'")).
Proof.
  destruct (poll_hz_cases cfg) as [Hover Hfine].
  unfold Config.apply_updates, Config.to_file_dict, Config.n_per_count, truediv.
  split; [ | split ].
  - intros Ho. rewrite (Hover Ho). reflexivity.
  - intros Ho. destruct (Hfine Ho) as [hz ->]. intros ->. reflexivity.
  - intros Ho. destruct (Hfine Ho) as [hz ->]. intros ->. reflexivity.
Qed.

(** X18. [to_file_dict] loses nothing: the dataclass built from its
    entries that name a field is the configuration it was taken from. *)
Theorem file_dict_round_trip (cfg : Config.AppConfig) d :
  Config.to_file_dict cfg = Ok d ->
  Config.from_kwargs
    (filter (fun kv => existsb (String.eqb (fst kv)) Config.field_names) d) = Ok cfg.
Proof.
  unfold Config.to_file_dict.
  destruct (Config.poll_hz cfg) as [hz | e]; cbn [rbind]; [ | discriminate ].
  destruct (Config.n_per_count cfg) as [npc | e]; cbn [rbind]; [ | discriminate ].
  intros [= <-]. destruct cfg. reflexivity.
Qed.

(** * The further properties on worked inputs *)

Lemma ramp_sensor_reachable : reachable ramp_sensor.
Proof.
  eapply (reachable_init (C := RampClient)
            "10.10.10.2" (AddrInt 0) [1] 502 None (Some (Float.of_int 1))
            DEFAULT_FORCE_RANGE_N DEFAULT_COUNTS_FULL_SCALE). reflexivity.
Qed.

Lemma read_counts_int16_scenario :
  List.length [-25536; 10000; 0] = n_axes scenario_sensor /\
  Forall (fun c => -32768 <= c <= 32767) [-25536; 10000; 0].
Proof.
  apply (read_counts_int16 scenario_sensor [-25536; 10000; 0]
           (snd (read_counts scenario_sensor))).
  vm_compute. reflexivity.
Defined.

Lemma init_builds_ramp :
  axis_device_ids ramp_sensor = [1] /\
  List.length (addresses ramp_sensor) = 1%nat /\
  addresses ramp_sensor = [0] /\
  _bias ramp_sensor = zero_wrench /\
  _n_per_count ramp_sensor = Float.of_int 1.
Proof.
  exact (init_builds (C := RampClient) "10.10.10.2" (AddrInt 0) [1] 502 None
           (Some (Float.of_int 1)) DEFAULT_FORCE_RANGE_N DEFAULT_COUNTS_FULL_SCALE
           ramp_sensor eq_refl).
Defined.

Lemma address_table_fixed_ramp :
  axis_device_ids (state_after (call_bias 3 Float.zero) ramp_sensor) = [1] /\
  addresses (state_after (call_bias 3 Float.zero) ramp_sensor) = [0] /\
  List.length (addresses ramp_sensor) = List.length (axis_device_ids ramp_sensor) /\
  n_axes ramp_sensor = 1%nat.
Proof.
  exact (address_table_fixed ramp_sensor (call_bias 3 Float.zero) ramp_sensor_reachable).
Defined.

Lemma torque_always_zero_ramp :
  fst (get_force_torque false ramp_sensor) =
    Ok (Float.of_int 10, Float.zero, Float.zero, Float.zero, Float.zero, Float.zero) /\
  Float.zero = Float.zero /\ Float.zero = Float.zero /\ Float.zero = Float.zero.
Proof.
  split; [ vm_compute; reflexivity | ].
  apply (torque_always_zero ramp_sensor false (Float.of_int 10) Float.zero Float.zero
           Float.zero Float.zero Float.zero (snd (get_force_torque false ramp_sensor))
           ramp_sensor_reachable).
  vm_compute. reflexivity.
Defined.

Lemma read_raw_u16_stops_at_failure_second_axis :
  fst (read_raw_u16 second_axis_down_sensor) =
    Raise (OtherError "ModbusIOException" "link down") /\
  read_script (_client (snd (read_raw_u16 second_axis_down_sensor))) = [reg 300].
Proof.
  assert (Hpre : read_axes [(1, 0)] [] second_axis_down_sensor =
                 (Ok [100], snd (read_axes [(1, 0)] [] second_axis_down_sensor)))
    by (vm_compute; reflexivity).
  assert (Hfail : _read_u16 2 0 (snd (read_axes [(1, 0)] [] second_axis_down_sensor)) =
                  (Raise (OtherError "ModbusIOException" "link down"),
                   snd (_read_u16 2 0 (snd (read_axes [(1, 0)] [] second_axis_down_sensor)))))
    by (vm_compute; reflexivity).
  destruct (read_raw_u16_stops_at_failure second_axis_down_sensor
              [(1, 0)] 2 0 [(3, 0)] _ _ _ _ eq_refl Hpre Hfail) as [Hraw _].
  rewrite Hraw. split; vm_compute; reflexivity.
Defined.

Lemma tare_nonpositive_disconnects_two_reads :
  Controller.tare 0 (fresh_controller two_reads_sensor) =
  ([], Controller.mkController
         (snd (connect two_reads_sensor)) false "samples must be > 0").
Proof.
  rewrite (tare_nonpositive_disconnects 0 (fresh_controller two_reads_sensor));
    [ | lia | vm_compute; reflexivity ].
  vm_compute. reflexivity.
Defined.

Lemma ensure_connected_twice_two_reads :
  let c1 := snd (Controller._ensure_connected (fresh_controller two_reads_sensor)) in
  Controller._ensure_connected c1 = (true, c1).
Proof.
  cbv zeta. apply ensure_connected_twice. vm_compute. reflexivity.
Defined.

Lemma reconfigure_isolation_range_10 :
  exists s,
    _build_sensor range_10_config = Ok s /\
    reconfigure range_10_config used_controller =
      (Ok tt, mkConfigured range_10_config (Controller.mkController s false "")) /\
    _bias s = zero_wrench /\
    n_axes s = 3%nat.
Proof.
  destruct (_build_sensor (C := RampClient) range_10_config) as [s | e] eqn:E;
    [ | vm_compute in E; discriminate ].
  exists s. split; [ reflexivity | ].
  destruct (reconfigure_isolation range_10_config used_controller s E)
    as (Hr & Hb & _ & Hn).
  split; [ exact Hr | split; [ exact Hb | exact Hn ] ].
Defined.

Lemma reconfigure_failure_zero_full_scale :
  fst (reconfigure zero_full_scale_config used_controller) =
    Raise (ZeroDivisionError "float division by zero") /\
  Controller.connected (controller (snd (reconfigure zero_full_scale_config used_controller)))
  = true.
Proof.
  destruct (reconfigure_failure zero_full_scale_config used_controller
              (ZeroDivisionError "float division by zero") eq_refl)
    as (Hr & _ & _ & Hc & _).
  split; [ exact Hr | rewrite Hc; reflexivity ].
Defined.

Lemma file_dict_round_trip_defaults :
  exists d,
    Config.to_file_dict Config.defaults = Ok d /\
    Config.from_kwargs
      (filter (fun kv => existsb (String.eqb (fst kv)) Config.field_names) d)
    = Ok Config.defaults.
Proof.
  destruct (Config.to_file_dict Config.defaults) as [d | e] eqn:E;
    [ | vm_compute in E; discriminate ].
  exists d. split; [ reflexivity | ].
  apply file_dict_round_trip. exact E.
Defined.

(** A delay beyond the clock of [time.sleep]: [bias] makes one read,
    raises the [OverflowError] of the pause, and the bias vector stays. *)
Lemma bias_infinite_delay :
  fst (bias 3 Float.infinity ramp_sensor) =
    Raise (OtherError "OverflowError" "timestamp too large to convert to C _PyTime_t") /\
  _client (snd (bias 3 Float.infinity ramp_sensor)) = mkRamp 10 /\
  _bias (snd (bias 3 Float.infinity ramp_sensor)) = _bias ramp_sensor.
Proof.
  rewrite (bias_refused 3 Float.infinity ramp_sensor) by (reflexivity || lia).
  repeat split.
Qed.

(** The default configuration gives both dictionaries; an interval of
    10^400 ms makes both raise [OverflowError]. *)
Lemma dicts_outcomes_intervals :
  (exists d, Config.to_public_dict Config.defaults = Ok d) /\
  (exists d, Config.to_file_dict Config.defaults = Ok d) /\
  Config.to_public_dict huge_interval_config =
    Raise (OtherError "OverflowError" "int too large to convert to float") /\
  Config.to_file_dict huge_interval_config =
    Raise (OtherError "OverflowError" "int too large to convert to float").
Proof.
  assert (Hd : Config.interval_overflows Config.defaults = false) by (vm_compute; reflexivity).
  assert (Hh : Config.interval_overflows huge_interval_config = true)
    by (vm_compute; reflexivity).
  destruct (proj2 (dicts_outcomes Config.defaults) Hd) as ((d1 & H1 & _) & _ & Hfile).
  destruct (Hfile eq_refl) as (d2 & H2 & _).
  destruct (proj1 (dicts_outcomes huge_interval_config) Hh) as [H3 H4].
  split; [ exists d1; exact H1 | split; [ exists d2; exact H2 | split; assumption ] ].
Defined.

(** [apply_updates] on the default configuration, on one with a full
    scale of zero and on one with an interval of 10^400 ms. *)
Lemma apply_updates_always_raises_three :
  Config.apply_updates Config.defaults no_updates =
    Raise (TypeError "AppConfig.__init__() got an unexpected keyword argument 'poll_hz'") /\
  Config.apply_updates zero_full_scale_config no_updates =
    Raise (ZeroDivisionError "float division by zero") /\
  Config.apply_updates huge_interval_config no_updates =
    Raise (OtherError "OverflowError" "int too large to convert to float").
Proof.
  assert (Hd : Config.interval_overflows Config.defaults = false) by (vm_compute; reflexivity).
  assert (Hz : Config.interval_overflows zero_full_scale_config = false)
    by (vm_compute; reflexivity).
  assert (Hh : Config.interval_overflows huge_interval_config = true)
    by (vm_compute; reflexivity).
  destruct (apply_updates_always_raises Config.defaults no_updates) as (_ & _ & H1).
  destruct (apply_updates_always_raises zero_full_scale_config no_updates) as (_ & H2 & _).
  destruct (apply_updates_always_raises huge_interval_config no_updates) as (H3 & _ & _).
  split; [ exact (H1 Hd eq_refl) | split; [ exact (H2 Hz eq_refl) | exact (H3 Hh) ] ].
Defined.
